(** * Tax-loss harvesting with wash-sale avoidance: the decision engine

    A shallow embedding of [models.py] (the domain records and the
    replacement policy) and of [logic.py] (the [WashSaleNavigator]), with the
    properties of the planning pass that the specification states.

    Representation choices, all following the Python code:
    - a Python [float] is an IEEE 754 binary64 number: Rocq's primitive
      [float], whose [+ - * /] and comparisons are the ones Python uses;
    - a [datetime.date] is its proleptic Gregorian ordinal
      ([date.toordinal()]), an integer between 1 and 3652059;
    - a [set] of symbols is a [gset string], the price table a
      [gmap string float]; the alternatives table, which the code both
      indexes and iterates in declaration order, is an association list;
    - an exception is a value of [exn]; code that may raise is in the
      [result] monad. *)

From Stdlib Require Import ZArith Floats DecimalString.
From stdpp Require Import gmap strings list sorting.

Set Warnings "-inexact-float".
Set Default Proof Using "Type".

Local Open Scope Z_scope.

(** ** Exceptions

    [ValueError] is what the sanity validation of [build_plan] and the field
    validator of [HarvestItem] raise; pydantic turns the latter into its
    [ValidationError] when the model is constructed (the message kept here
    is the validator's). [OverflowError] comes from date arithmetic. *)

Inductive exn : Type :=
  | ValueError (msg : string)
  | ValidationError (msg : string)
  | OverflowError (msg : string).

Inductive result (A : Type) : Type :=
  | Ok (a : A)
  | Raise (e : exn).
Arguments Ok {A} a.
Arguments Raise {A} e.

#[global] Instance result_ret : MRet result := λ A a, Ok a.
#[global] Instance result_bind : MBind result := λ A B f m,
  match m with
  | Ok a => f a
  | Raise e => Raise e
  end.

(** ** The parts of the Python runtime that the engine uses *)

Module Py.

(** [bool(x)] for a float: [x != 0.0], so NaN is true and both zeros are
    false. *)
Definition truthy (x : float) : bool := negb (x =? 0)%float.

(** [x or y] for an optional float [x]. *)
Definition or_else (x : option float) (y : float) : float :=
  match x with
  | Some v => if truthy v then v else y
  | None => y
  end.

(** [max(a, b)]: the builtin keeps its first argument unless a later one
    compares greater. *)
Definition max (a b : float) : float := if (a <? b)%float then b else a.

(** Nearest integer to [n / d] for [0 < d], ties to the even one. *)
Definition div_half_even (n d : Z) : Z :=
  let q := n / d in
  match 2 * (n mod d) ?= d with
  | Lt => q
  | Gt => q + 1
  | Eq => if Z.even q then q else q + 1
  end.

(** [round(x, ndigits)] for a float and [0 <= ndigits]: the exact binary
    value of [x] is rounded to the nearest multiple of [10^-ndigits], ties
    to even, and that decimal is read back as the nearest float. Zeros,
    infinities and NaN round to themselves, and so does every float that
    is an integer. *)
Definition round (x : float) (ndigits : Z) : float :=
  match Prim2SF x with
  | S754_finite s m e =>
      if 0 <=? e then x
      else
        let k := div_half_even (Z.pos m * 10 ^ ndigits) (2 ^ (- e)) in
        let num := match k with
                   | Z.pos p => S754_finite s p 0
                   | _ => S754_zero s
                   end in
        SF2Prim (SFdiv prec emax num (S754_finite false (Z.to_pos (10 ^ ndigits)) 0))
  | _ => x
  end.

(** *** [datetime.date] *)

Definition date : Type := Z.

Definition MAXORDINAL : Z := 3652059.

(** [d + timedelta(days=n)]. *)
Definition date_add (d : date) (n : Z) : result date :=
  let o := d + n in
  if (1 <=? o) && (o <=? MAXORDINAL) then Ok o
  else Raise (OverflowError "date value out of range").

(** [(a - b).days]. *)
Definition days_between (a b : date) : Z := a - b.

Definition days_before_month (leap : bool) (month : Z) : Z :=
  (match month with
   | 1 => 0 | 2 => 31 | 3 => 59 | 4 => 90 | 5 => 120 | 6 => 151
   | 7 => 181 | 8 => 212 | 9 => 243 | 10 => 273 | 11 => 304 | _ => 334
   end) + (if (2 <? month) && leap then 1 else 0).

Definition days_in_month (leap : bool) (month : Z) : Z :=
  match month with
  | 2 => if leap then 29 else 28
  | 4 | 6 | 9 | 11 => 30
  | _ => 31
  end.

(** The calendar date of an ordinal, as [datetime._ord2ymd] computes it. *)
Definition ord2ymd (ordinal : date) : Z * Z * Z :=
  let n := ordinal - 1 in
  let n400 := n / 146097 in
  let n := n mod 146097 in
  let n100 := n / 36524 in
  let n := n mod 36524 in
  let n4 := n / 1461 in
  let n := n mod 1461 in
  let n1 := n / 365 in
  let n := n mod 365 in
  let year := n400 * 400 + 1 + n100 * 100 + n4 * 4 + n1 in
  if (n1 =? 4) || (n100 =? 4) then (year - 1, 12, 31)
  else
    let leap := (n1 =? 3) && (negb (n4 =? 24) || (n100 =? 3)) in
    let month := Z.shiftr (n + 50) 5 in
    let preceding := days_before_month leap month in
    if n <? preceding
    then (year, month - 1, n - (preceding - days_in_month leap (month - 1)) + 1)
    else (year, month, n - preceding + 1).

Definition digit (n : Z) : string :=
  String (Ascii.ascii_of_nat (48 + Z.to_nat (n mod 10))) "".

(** [date.isoformat()]: ["%04d-%02d-%02d"]. *)
Definition isoformat (d : date) : string :=
  let '(y, m, dd) := ord2ymd d in
  digit (y / 1000) +:+ digit (y / 100) +:+ digit (y / 10) +:+ digit y +:+ "-"
  +:+ digit (m / 10) +:+ digit m +:+ "-" +:+ digit (dd / 10) +:+ digit dd.

End Py.

(** ** models.py: domain models *)

Module TaxLot.
Record t : Type := mk {
  symbol : string;
  shares : float;
  buy_date : Py.date;
  cost_basis_per_share : float;
}.
End TaxLot.

Module RecentBuy.
Record t : Type := mk {
  date : Py.date;
  symbol : string;
  shares : float;
}.
End RecentBuy.

Module MarketData.
Record t : Type := mk {
  asof : Py.date;
  prices : gmap string float;
}.

Definition price (self : t) (symbol : string) : option float :=
  prices self !! symbol.
End MarketData.

(** ** models.py: the replacement policy *)

Module ReplacementPolicy.
Record t : Type := mk {
  prohibited_equivalents : list (list string);
  recommended_alternatives : list (string * list string);
}.

(** [d.get(k)] on a table kept in declaration order. *)
Fixpoint dict_get {V : Type} (d : list (string * V)) (k : string) : option V :=
  match d with
  | [] => None
  | (k', v) :: rest => if bool_decide (k' = k) then Some v else dict_get rest k
  end.

Fixpoint cluster_scan (clusters : list (list string)) (symbol : string)
  : option (list string) :=
  match clusters with
  | [] => None
  | cluster :: rest =>
      if bool_decide (symbol ∈ cluster) then Some cluster
      else cluster_scan rest symbol
  end.

Definition cluster_for (self : t) (symbol : string) : gset string :=
  match cluster_scan (prohibited_equivalents self) symbol with
  | Some cluster => list_to_set cluster
  | None => {[ symbol ]}
  end.

(** The [for s, lst in ...items()] loop of [safe_alternatives]: [alts] is
    overwritten at the first entry whose key has [symbol] in its cluster,
    and the loop stops there. *)
Fixpoint alias_scan (self : t) (symbol : string)
    (items : list (string * list string)) (alts : list string) : list string :=
  match items with
  | [] => alts
  | (s, lst) :: rest =>
      if bool_decide (symbol ∈ cluster_for self s) then lst
      else alias_scan self symbol rest alts
  end.

Definition safe_alternatives (self : t) (symbol : string) : list string :=
  let cluster := cluster_for self symbol in
  let alts := default [] (dict_get (recommended_alternatives self) symbol) in
  let alts :=
    if bool_decide (alts = [])
    then alias_scan self symbol (recommended_alternatives self) alts
    else alts in
  filter (λ a, a ∉ cluster) alts.
End ReplacementPolicy.

(** ** models.py: planning schemas *)

Module HarvestItem.
Record t : Type := mk {
  symbol : string;
  lot_index : nat;
  shares_to_sell : float;
  sale_price : float;
  loss_dollars : float;
  replacement_symbol : option string;
  replacement_shares : option float;
  replacement_price : option float;
  sale_date : Py.date;
  reentry_date_ok_after : Py.date;
  wash_sale_blocked : bool;
  block_reason : option string;
  notes : option string;
}.

(** The field validator [loss_positive]. *)
Definition loss_positive (v : float) : result float :=
  if (v <? 0)%float then Raise (ValueError "loss_dollars must be >= 0")
  else Ok v.

(** Construction of the model: the fields are taken as given, except that
    a failing field validator makes the constructor raise pydantic's
    [ValidationError]. *)
Definition new (fields : t) : result t :=
  match loss_positive (loss_dollars fields) with
  | Ok _ => Ok fields
  | Raise (ValueError msg) => Raise (ValidationError msg)
  | Raise e => Raise e
  end.
End HarvestItem.

Module HarvestPlan.
Record t : Type := mk {
  asof : Py.date;
  items : list HarvestItem.t;
  total_harvestable_loss : float;
  simulated_cash_delta : float;
  policy_version : string;
}.

Definition new (asof : Py.date) (items : list HarvestItem.t)
    (total_harvestable_loss simulated_cash_delta : float) : t :=
  mk asof items total_harvestable_loss simulated_cash_delta "demo-1".
End HarvestPlan.

(** ** logic.py: the navigator *)

Module WashSaleNavigator.
Record t : Type := mk {
  policy : ReplacementPolicy.t;
  min_loss_dollars : float;
  min_loss_pct : float;
}.

(** The reason reported for a recent buy inside the window. *)
Definition window_reason (rb : RecentBuy.t) : string :=
  "Recent buy on " +:+ Py.isoformat (RecentBuy.date rb) +:+ " for "
  +:+ RecentBuy.symbol rb +:+ " triggers 30-day window".

(** The [for rb in buys] loop of [_is_blocked]. *)
Fixpoint window_scan (cluster : gset string) (sale_date : Py.date)
    (buys : list RecentBuy.t) : bool * string :=
  match buys with
  | [] => (false, "")
  | rb :: rest =>
      let days := Py.days_between sale_date (RecentBuy.date rb) in
      if bool_decide (RecentBuy.symbol rb ∈ cluster) && ((0 <=? days) && (days <=? 30))
      then (true, window_reason rb)
      else window_scan cluster sale_date rest
  end.

Definition _is_blocked (self : t) (symbol : string) (sale_date : Py.date)
    (buys : list RecentBuy.t) : bool * string :=
  window_scan (ReplacementPolicy.cluster_for (policy self) symbol) sale_date buys.

(** The [for alt in ...] loop of [_pick_replacement]. *)
Fixpoint pick_scan (alts : list string) (proceeds : float) (market : MarketData.t)
  : option string * option float * option float :=
  match alts with
  | [] => (None, None, None)
  | alt :: rest =>
      match MarketData.price market alt with
      | Some px =>
          if Py.truthy px && (0.01 <? px)%float
          then (Some alt, Some (proceeds / px)%float, Some px)
          else pick_scan rest proceeds market
      | None => pick_scan rest proceeds market
      end
  end.

Definition _pick_replacement (self : t) (symbol : string) (proceeds : float)
    (market : MarketData.t) : option string * option float * option float :=
  pick_scan (ReplacementPolicy.safe_alternatives (policy self) symbol) proceeds market.

(** The locals [loss_total] and [loss_pct] of [build_plan]. *)
Definition loss_total (lot : TaxLot.t) (px : float) : float :=
  let pnl := (px - TaxLot.cost_basis_per_share lot)%float in
  ((if (pnl <? 0)%float then (- pnl)%float else 0%float) * TaxLot.shares lot)%float.

Definition loss_pct (lot : TaxLot.t) (px : float) : float :=
  let cost := TaxLot.cost_basis_per_share lot in
  if (0 <? cost)%float then ((cost - px) / Py.max cost 1e-9)%float else 0%float.

(** The accumulators of the planning loop: [items], [total_loss],
    [cash_delta]. *)
Definition acc : Type := list HarvestItem.t * float * float.

(** One iteration of the loop over [enumerate(lots)]. *)
Definition lot_step (self : t) (market : MarketData.t) (buys : list RecentBuy.t)
    (today : Py.date) (idx : nat) (lot : TaxLot.t) (st : acc) : result acc :=
  let '(items, total_loss, cash_delta) := st in
  match MarketData.price market (TaxLot.symbol lot) with
  | None => Ok st
  | Some px =>
      if (loss_total lot px <? min_loss_dollars self)%float
         || (loss_pct lot px <? min_loss_pct self)%float
      then Ok st
      else
        let '(blocked, reason) := _is_blocked self (TaxLot.symbol lot) today buys in
        let proceeds := (TaxLot.shares lot * px)%float in
        let '(repl_symbol, repl_shares, repl_price, blocked, reason) :=
          if negb blocked then
            let '(repl_symbol, repl_shares, repl_price) :=
              _pick_replacement self (TaxLot.symbol lot) proceeds market in
            match repl_symbol with
            | None => (repl_symbol, repl_shares, repl_price, true,
                       "No safe replacement with known price")
            | Some _ => (repl_symbol, repl_shares, repl_price, blocked, reason)
            end
          else (None, None, None, blocked, reason) in
        let shares_to_sell := Py.round (TaxLot.shares lot) 6 in
        let loss_dollars := Py.round (loss_total lot px) 2 in
        let replacement_shares := (λ q, Py.round q 6) <$> repl_shares in
        reentry ← Py.date_add today 31;
        item ← HarvestItem.new
          {| HarvestItem.symbol := TaxLot.symbol lot;
             HarvestItem.lot_index := idx;
             HarvestItem.shares_to_sell := shares_to_sell;
             HarvestItem.sale_price := px;
             HarvestItem.loss_dollars := loss_dollars;
             HarvestItem.replacement_symbol := repl_symbol;
             HarvestItem.replacement_shares := replacement_shares;
             HarvestItem.replacement_price := repl_price;
             HarvestItem.sale_date := today;
             HarvestItem.reentry_date_ok_after := reentry;
             HarvestItem.wash_sale_blocked := blocked;
             HarvestItem.block_reason := if blocked then Some reason else None;
             HarvestItem.notes := None |};
        if negb blocked then
          let repl_cost := (Py.or_else repl_shares 0 * Py.or_else repl_price 0)%float in
          Ok (items ++ [item],
              (total_loss + HarvestItem.loss_dollars item)%float,
              (cash_delta + (proceeds - repl_cost))%float)
        else Ok (items ++ [item], total_loss, cash_delta)
  end.

Fixpoint plan_loop (self : t) (market : MarketData.t) (buys : list RecentBuy.t)
    (today : Py.date) (idx : nat) (lots : list TaxLot.t) (st : acc) : result acc :=
  match lots with
  | [] => Ok st
  | lot :: rest =>
      st' ← lot_step self market buys today idx lot st;
      plan_loop self market buys today (S idx) rest st'
  end.

(** The sanity validation that ends [build_plan]. *)
Fixpoint sanity_validation (self : t) (items : list HarvestItem.t) : result () :=
  match items with
  | [] => Ok ()
  | it :: rest =>
      if negb (HarvestItem.wash_sale_blocked it) then
        if match HarvestItem.replacement_symbol it with
           | Some r => bool_decide
               (r ∈ ReplacementPolicy.cluster_for (policy self) (HarvestItem.symbol it))
           | None => false
           end
        then Raise (ValueError "Replacement is substantially identical")
        else if Py.days_between (HarvestItem.reentry_date_ok_after it)
                  (HarvestItem.sale_date it) <? 31
        then Raise (ValueError "Re-entry date violates 31-day rule")
        else sanity_validation self rest
      else sanity_validation self rest
  end.

Definition build_plan (self : t) (lots : list TaxLot.t) (market : MarketData.t)
    (buys : list RecentBuy.t) : result HarvestPlan.t :=
  let today := MarketData.asof market in
  '(items, total_loss, cash_delta) ←
    plan_loop self market buys today 0%nat lots ([], 0%float, 0%float);
  let plan := HarvestPlan.new today items (Py.round total_loss 2) (Py.round cash_delta 2) in
  _ ← sanity_validation self (HarvestPlan.items plan);
  Ok plan.
End WashSaleNavigator.

(** ** logic.py: the demo policy, and the demo data of seed.py *)

Definition demo_policy : ReplacementPolicy.t :=
  {| ReplacementPolicy.prohibited_equivalents :=
       [ ["SPY"; "IVV"; "VOO"]; ["QQQ"; "QQQM"]; ["VTI"; "ITOT"; "SCHB"] ];
     ReplacementPolicy.recommended_alternatives :=
       [ ("SPY", ["VTI"; "SCHX"; "ITOT"]);
         ("IVV", ["VTI"; "SCHX"; "ITOT"]);
         ("VOO", ["VTI"; "SCHX"; "ITOT"]);
         ("QQQ", ["SCHG"; "XLK"; "IYW"]);
         ("QQQM", ["SCHG"; "XLK"; "IYW"]);
         ("VTI", ["SCHX"; "VTV"; "SCHF"]);
         ("ITOT", ["SCHX"; "VTV"; "SCHF"]);
         ("SCHB", ["SCHX"; "VTV"; "SCHF"]);
         ("AAPL", ["XLK"; "VGT"]);
         ("TSLA", ["XLY"; "CARZ"; "DRIV"]);
         ("NVDA", ["SOXX"; "SMH"]) ] |}.

Definition demo_navigator : WashSaleNavigator.t :=
  WashSaleNavigator.mk demo_policy 200 0.05.

(** The seed of [seed_demo], for the day 2024-06-03 (ordinal 739040). *)
Definition demo_today : Py.date := 739040.

Definition demo_lots : list TaxLot.t :=
  [ TaxLot.mk "SPY" 50 (demo_today - 120) 520;
    TaxLot.mk "QQQ" 30 (demo_today - 90) 480;
    TaxLot.mk "AAPL" 40 (demo_today - 400) 195;
    TaxLot.mk "TSLA" 20 (demo_today - 70) 270;
    TaxLot.mk "NVDA" 10 (demo_today - 50) 130;
    TaxLot.mk "VTI" 60 (demo_today - 200) 260 ].

Definition demo_buys : list RecentBuy.t :=
  [ RecentBuy.mk (demo_today - 15) "VOO" 5;
    RecentBuy.mk (demo_today - 15) "AAPL" 5 ].

Definition demo_prices : list (string * float) :=
  [ ("SPY", 500); ("IVV", 500.10); ("VOO", 499.90);
    ("VTI", 250); ("ITOT", 248.50); ("SCHB", 249.75);
    ("SCHX", 52); ("VTV", 160); ("SCHF", 36);
    ("QQQ", 455); ("QQQM", 354);
    ("SCHG", 77); ("XLK", 225); ("IYW", 120);
    ("AAPL", 178); ("VGT", 540);
    ("TSLA", 245); ("XLY", 180); ("CARZ", 52); ("DRIV", 28);
    ("NVDA", 115); ("SOXX", 210); ("SMH", 195) ]%float.

Definition demo_market : MarketData.t :=
  MarketData.mk demo_today (list_to_map demo_prices).

(** ** logic.py: the explanation of a plan *)

(** String formatting as the f-strings of [explain_plan] do it. *)
Module PyFormat.
(** [str(n)] for an int that is not negative. *)
Definition str_N (n : N) : string := NilZero.string_of_uint (N.to_uint n).

(** [str(x)] for an optional string. *)
Definition str_opt (x : option string) : string := default "None" x.

(** The commas of the thousands option of a format, on the digits of the
    whole part from the lowest one upwards. *)
Fixpoint group3 (rev_digits : list Ascii.ascii) : list Ascii.ascii :=
  match rev_digits with
  | a :: b :: c :: ((_ :: _) as rest) =>
      a :: b :: c :: Ascii.ascii_of_nat 44 :: group3 rest
  | _ => rev_digits
  end.

Definition thousands (digits : string) : string :=
  String.string_of_list_ascii
    (rev (group3 (rev (String.list_ascii_of_string digits)))).

Definition zero_pad (width : nat) (digits : string) : string :=
  String.string_of_list_ascii (replicate (width - String.length digits)
                                 (Ascii.ascii_of_nat 48))
  +:+ digits.

Definition sign (s : bool) : string := if s then "-" else "".

(** [format(x, ".<ndigits>f")] and, with [grouped], [format(x, ",.<ndigits>f")]:
    the exact binary value of [x] rounded to [ndigits] decimals, ties to
    even, with the sign of [x] also when the digits are all zero. *)
Definition fixed (grouped : bool) (ndigits : N) (x : float) : string :=
  let scale := 10 ^ Z.of_N ndigits in
  let text (s : bool) (n : Z) : string :=
    let whole := str_N (Z.to_N (n / scale)) in
    sign s +:+ (if grouped then thousands whole else whole)
    +:+ (if (ndigits =? 0)%N then ""
         else "." +:+ zero_pad (N.to_nat ndigits) (str_N (Z.to_N (n mod scale)))) in
  match Prim2SF x with
  | S754_nan => "nan"
  | S754_infinity s => sign s +:+ "inf"
  | S754_zero s => text s 0
  | S754_finite s m e =>
      text s (if 0 <=? e then Z.pos m * 2 ^ e * scale
              else Py.div_half_even (Z.pos m * scale) (2 ^ (- e)))
  end.

Definition newline : string := String (Ascii.ascii_of_nat 10) "".

(** [sep.join(lines)]. *)
Fixpoint join (sep : string) (lines : list string) : string :=
  match lines with
  | [] => ""
  | [line] => line
  | line :: rest => line +:+ sep +:+ join sep rest
  end.
End PyFormat.

Module Explain.
(** What the fallback of [explain_plan] ends with: its value, or the
    [TypeError] of formatting [None] with a float format. *)
Inductive outcome (A : Type) : Type :=
  | Done (a : A)
  | TypeError (msg : string).
Arguments Done {A} a.
Arguments TypeError {A} msg.

(** ["${x:,.2f}"]. *)
Definition dollars (x : float) : string := "$" +:+ PyFormat.fixed true 2 x.

(** The line of one item. *)
Definition item_line (it : HarvestItem.t) : outcome string :=
  if HarvestItem.wash_sale_blocked it then
    Done ("BLOCKED " +:+ HarvestItem.symbol it
          +:+ "[lot " +:+ PyFormat.str_N (N.of_nat (HarvestItem.lot_index it))
          +:+ "] — " +:+ PyFormat.str_opt (HarvestItem.block_reason it))
  else
    match HarvestItem.replacement_shares it with
    | Some qty =>
        Done ("SELL " +:+ HarvestItem.symbol it
              +:+ "[lot " +:+ PyFormat.str_N (N.of_nat (HarvestItem.lot_index it))
              +:+ "] to harvest " +:+ dollars (HarvestItem.loss_dollars it) +:+ "; "
              +:+ "BUY " +:+ PyFormat.str_opt (HarvestItem.replacement_symbol it)
              +:+ " (~" +:+ PyFormat.fixed false 4 qty +:+ " sh). "
              +:+ "Re-enter after "
              +:+ Py.isoformat (HarvestItem.reentry_date_ok_after it) +:+ ".")
    | None => TypeError "unsupported format string passed to NoneType.__format__"
    end.

(** The [for it in plan.items] loop. *)
Fixpoint item_lines (items : list HarvestItem.t) (lines : list string)
  : outcome (list string) :=
  match items with
  | [] => Done lines
  | it :: rest =>
      match item_line it with
      | Done line => item_lines rest (lines ++ [line])
      | TypeError msg => TypeError msg
      end
  end.

(** The deterministic fallback, the body of [except Exception]. *)
Definition fallback (plan : HarvestPlan.t) : outcome string :=
  let lines :=
    ["As of " +:+ Py.isoformat (HarvestPlan.asof plan)
     +:+ ", estimated harvestable loss ≈ "
     +:+ dollars (HarvestPlan.total_harvestable_loss plan) +:+ "."] in
  let lines :=
    if (0.01 <? abs (HarvestPlan.simulated_cash_delta plan))%float
    then lines ++ ["Approx. cash drift from replacements: "
                   +:+ dollars (HarvestPlan.simulated_cash_delta plan) +:+ "."]
    else lines in
  match item_lines (HarvestPlan.items plan) lines with
  | Done lines =>
      Done (PyFormat.join PyFormat.newline (lines ++ ["(Demo only, not tax advice.)"]))
  | TypeError msg => TypeError msg
  end.

(** [explain_plan]. What the [try] block does is for the language model
    to say: [reply] is the stripped content of its answer, or [None] when
    anything in the block raises; the fallback then runs. *)
Definition explain_plan (reply : option string) (plan : HarvestPlan.t) : outcome string :=
  match reply with
  | Some content => Done (if bool_decide (content = "") then "(empty LLM response)" else content)
  | None => fallback plan
  end.
End Explain.

(** ** main.py: the policy read from the database *)

Module Main.
(** [d.setdefault(k, []).append(v)] on a dict, kept in insertion order. *)
Fixpoint setdefault_append {K V : Type} `{EqDecision K}
    (d : list (K * list V)) (k : K) (v : V) : list (K * list V) :=
  match d with
  | [] => [(k, [v])]
  | (k', vs) :: rest =>
      if decide (k' = k) then (k', vs ++ [v]) :: rest
      else (k', vs) :: setdefault_append rest k v
  end.

(** The [for row in cur.fetchall()] loops: the rows grouped by their
    first column. *)
Definition group_rows {K V : Type} `{EqDecision K} (rows : list (K * V))
  : list (K * list V) :=
  foldl (λ d row, setdefault_append d row.1 row.2) [] rows.

(** [_policy_from_db], as a function of the rows that its two queries
    fetch: the [(cluster_id, symbol)] rows of [policy_clusters] and the
    [(symbol, alt_symbol)] rows of [policy_alternatives]. *)
Definition _policy_from_db (cluster_rows : list (Z * string))
    (alt_rows : list (string * string)) : ReplacementPolicy.t :=
  let clusters := (group_rows cluster_rows).*2 in
  let alts := group_rows alt_rows in
  if bool_decide (clusters = []) && bool_decide (alts = []) then demo_policy
  else ReplacementPolicy.mk clusters alts.
End Main.

(** * Vocabulary of the properties

    Definitions used to state and to prove the properties: none of them is
    part of the program. *)

(** ** Signs of spec floats *)

(** Rounding keeps the sign it is given, so [b - a] is the opposite of
    [a - b] whenever [a - b] is negative. *)
Definition signed (s : bool) (x : spec_float) : Prop :=
  match x with
  | S754_zero s' | S754_infinity s' | S754_finite s' _ _ => s' = s
  | S754_nan => True
  end.

(** ** Clusters, recent buys in the window, usable prices, sums *)

(** The invariant of the data model: a symbol belongs to at most one
    cluster of the policy. *)
Definition disjoint_clusters (p : ReplacementPolicy.t) : Prop :=
  ∀ i j c1 c2 x,
    ReplacementPolicy.prohibited_equivalents p !! i = Some c1 →
    ReplacementPolicy.prohibited_equivalents p !! j = Some c2 →
    x ∈ c1 → x ∈ c2 → i = j.

(** A recent buy that triggers the wash-sale window of a sale of [symbol]
    on [sale_date]. *)
Definition in_window (p : ReplacementPolicy.t) (symbol : string)
    (sale_date : Py.date) (rb : RecentBuy.t) : Prop :=
  RecentBuy.symbol rb ∈ ReplacementPolicy.cluster_for p symbol
  ∧ 0 ≤ Py.days_between sale_date (RecentBuy.date rb) ≤ 30.

#[global] Instance in_window_dec p symbol sale_date rb :
  Decision (in_window p symbol sale_date rb).
Proof. unfold in_window. apply _. Defined.

(** An alternative whose market price is known and above the floor. *)
Definition usable_price (market : MarketData.t) (alt : string) : option float :=
  match MarketData.price market alt with
  | Some px => if (0.01 <? px)%float then Some px else None
  | None => None
  end.

(** What a non-blocked item adds to [cash_delta], recomputed from the item
    and the lot it was built from: [proceeds - repl_cost], where [proceeds]
    is the whole lot at the sale price and [repl_cost] multiplies the
    quantity [proceeds / replacement_price] by the replacement price. *)
Definition cash_term (lots : list TaxLot.t) (it : HarvestItem.t) : float :=
  match lots !! HarvestItem.lot_index it with
  | Some lot =>
      let proceeds := (TaxLot.shares lot * HarvestItem.sale_price it)%float in
      let repl_shares := (λ rp, (proceeds / rp)%float) <$> HarvestItem.replacement_price it in
      (proceeds - Py.or_else repl_shares 0
                  * Py.or_else (HarvestItem.replacement_price it) 0)%float
  | None => 0%float
  end.

(** Left-to-right floating-point sum, as the [+=] of the loop computes it
    from [0.0]. *)
Definition fsum (xs : list float) : float := foldl (λ a x, (a + x)%float) 0%float xs.

Definition unblocked (it : HarvestItem.t) : Prop :=
  HarvestItem.wash_sale_blocked it = false.

#[global] Instance unblocked_dec it : Decision (unblocked it).
Proof. unfold unblocked. apply _. Defined.

(** ** The decisions of one run of the planning loop *)

Section Decisions.
Import WashSaleNavigator.
Context (self : WashSaleNavigator.t) (market : MarketData.t)
        (buys : list RecentBuy.t).
Local Abbreviation today := (MarketData.asof market).

(** The lot survives both [continue] tests of the loop at price [px]. *)
Definition passes (lot : TaxLot.t) (px : float) : bool :=
  negb ((loss_total lot px <? min_loss_dollars self)%float
        || (loss_pct lot px <? min_loss_pct self)%float).

(** The price at which a lot is evaluated, when it is priced and passes. *)
Definition evaluable (lot : TaxLot.t) : option float :=
  match MarketData.price market (TaxLot.symbol lot) with
  | Some px => if passes lot px then Some px else None
  | None => None
  end.

(** The values of [repl_symbol], [repl_shares], [repl_price], [blocked]
    and [reason] when the item is built. *)
Definition verdict (lot : TaxLot.t) (px : float)
  : option string * option float * option float * bool * string :=
  let '(blocked, reason) := _is_blocked self (TaxLot.symbol lot) today buys in
  if negb blocked then
    let '(repl_symbol, repl_shares, repl_price) :=
      _pick_replacement self (TaxLot.symbol lot) (TaxLot.shares lot * px)%float market in
    match repl_symbol with
    | None => (repl_symbol, repl_shares, repl_price, true,
               "No safe replacement with known price")
    | Some _ => (repl_symbol, repl_shares, repl_price, blocked, reason)
    end
  else (None, None, None, blocked, reason).

(** The item built for lot number [idx], and what it adds to
    [cash_delta] when it is not blocked. *)
Definition item_of (e : nat * TaxLot.t * float) : HarvestItem.t :=
  let '(idx, lot, px) := e in
  let '(repl_symbol, repl_shares, repl_price, blocked, reason) := verdict lot px in
  {| HarvestItem.symbol := TaxLot.symbol lot;
     HarvestItem.lot_index := idx;
     HarvestItem.shares_to_sell := Py.round (TaxLot.shares lot) 6;
     HarvestItem.sale_price := px;
     HarvestItem.loss_dollars := Py.round (loss_total lot px) 2;
     HarvestItem.replacement_symbol := repl_symbol;
     HarvestItem.replacement_shares := (λ q, Py.round q 6) <$> repl_shares;
     HarvestItem.replacement_price := repl_price;
     HarvestItem.sale_date := today;
     HarvestItem.reentry_date_ok_after := today + 31;
     HarvestItem.wash_sale_blocked := blocked;
     HarvestItem.block_reason := if blocked then Some reason else None;
     HarvestItem.notes := None |}.

Definition cash_of (e : nat * TaxLot.t * float) : float :=
  let '(_, lot, px) := e in
  let '(_, repl_shares, repl_price, _, _) := verdict lot px in
  (TaxLot.shares lot * px - Py.or_else repl_shares 0 * Py.or_else repl_price 0)%float.

(** The two ways in which building an item can raise. *)
Definition reentry_representable : bool :=
  (1 <=? today + 31) && (today + 31 <=? Py.MAXORDINAL).

Definition loss_accepted (e : nat * TaxLot.t * float) : bool :=
  negb (Py.round (loss_total e.1.2 e.2) 2 <? 0)%float.

Definition construction (e : nat * TaxLot.t * float) : result () :=
  if reentry_representable then
    if loss_accepted e then Ok ()
    else Raise (ValidationError "loss_dollars must be >= 0")
  else Raise (OverflowError "date value out of range").

Definition add_unblocked (f : nat * TaxLot.t * float → float)
    (a : float) (e : nat * TaxLot.t * float) : float :=
  if HarvestItem.wash_sale_blocked (item_of e) then a else (a + f e)%float.

(** The priced, threshold-passing lots of a list, with their positions. *)
Fixpoint entries (idx : nat) (lots : list TaxLot.t) : list (nat * TaxLot.t * float) :=
  match lots with
  | [] => []
  | lot :: rest =>
      match evaluable lot with
      | Some px => (idx, lot, px) :: entries (S idx) rest
      | None => entries (S idx) rest
      end
  end.

Definition loop_result (es : list (nat * TaxLot.t * float)) (st : acc) : acc :=
  (st.1.1 ++ (item_of <$> es),
   foldl (add_unblocked (λ e, HarvestItem.loss_dollars (item_of e))) st.1.2 es,
   foldl (add_unblocked cash_of) st.2 es).

Definition constructible (e : nat * TaxLot.t * float) : bool :=
  reentry_representable && loss_accepted e.

Definition construction_error : exn :=
  if reentry_representable then ValidationError "loss_dollars must be >= 0"
  else OverflowError "date value out of range".

(** What the wash-sale test and the replacement search decide for a lot:
    a recent buy in the window blocks it; otherwise the first usable
    alternative replaces it; otherwise it is blocked for want of one. *)
Inductive verdict_of (lot : TaxLot.t) (px : float)
  : option string * option float * option float * bool * string → Prop :=
  | verdict_window pre rb post :
      buys = pre ++ rb :: post →
      Forall (λ b, ¬ in_window (policy self) (TaxLot.symbol lot) today b) pre →
      in_window (policy self) (TaxLot.symbol lot) today rb →
      _is_blocked self (TaxLot.symbol lot) today buys = (true, window_reason rb) →
      verdict_of lot px (None, None, None, true, window_reason rb)
  | verdict_replaced pre alt post rp :
      Forall (λ b, ¬ in_window (policy self) (TaxLot.symbol lot) today b) buys →
      _is_blocked self (TaxLot.symbol lot) today buys = (false, "") →
      ReplacementPolicy.safe_alternatives (policy self) (TaxLot.symbol lot)
        = pre ++ alt :: post →
      Forall (λ a, usable_price market a = None) pre →
      usable_price market alt = Some rp →
      _pick_replacement self (TaxLot.symbol lot) (TaxLot.shares lot * px)%float market
        = (Some alt, Some (TaxLot.shares lot * px / rp)%float, Some rp) →
      verdict_of lot px
        (Some alt, Some (TaxLot.shares lot * px / rp)%float, Some rp, false, "")
  | verdict_stranded :
      Forall (λ b, ¬ in_window (policy self) (TaxLot.symbol lot) today b) buys →
      _is_blocked self (TaxLot.symbol lot) today buys = (false, "") →
      Forall (λ a, usable_price market a = None)
        (ReplacementPolicy.safe_alternatives (policy self) (TaxLot.symbol lot)) →
      _pick_replacement self (TaxLot.symbol lot) (TaxLot.shares lot * px)%float market
        = (None, None, None) →
      verdict_of lot px
        (None, None, None, true, "No safe replacement with known price").

End Decisions.

(** ** The claims as the specification words them, and inputs that tell
    them from the code *)

(** C8 (as the specification words it). An empty lots list and/or an empty
    recent-buys list gives a plan with no items and both totals zero. *)
Definition empty_inputs_claim (self : WashSaleNavigator.t) (lots : list TaxLot.t)
    (market : MarketData.t) (buys : list RecentBuy.t) : Prop :=
  lots = [] ∨ buys = [] →
  ∃ plan,
    WashSaleNavigator.build_plan self lots market buys = Ok plan
    ∧ HarvestPlan.items plan = []
    ∧ HarvestPlan.total_harvestable_loss plan = 0%float
    ∧ HarvestPlan.simulated_cash_delta plan = 0%float.

(** C3 (as the specification words it). The contribution of an item to the
    cash delta computed from the values rounded when the item was built:
    the stored [shares_to_sell] and [replacement_shares] (6 places), with
    the two dollar amounts taken as they come, or rounded to 2 places. *)
Definition stored_cash_term (it : HarvestItem.t) : float :=
  (HarvestItem.shares_to_sell it * HarvestItem.sale_price it
   - Py.or_else (HarvestItem.replacement_shares it) 0
     * Py.or_else (HarvestItem.replacement_price it) 0)%float.

Definition spec_cash_term (it : HarvestItem.t) : float :=
  (Py.round (HarvestItem.shares_to_sell it * HarvestItem.sale_price it) 2
   - Py.round (Py.or_else (HarvestItem.replacement_shares it) 0
               * Py.or_else (HarvestItem.replacement_price it) 0) 2)%float.

(** C5 (as the specification words it). The loss is
    [max(0, cost_basis - price) * shares]; the loss percentage is the loss
    of a share relative to its cost basis, and 0 for a cost basis [<= 0];
    the lot gets an item when it is priced and both reach the thresholds. *)
Definition spec_loss_total (lot : TaxLot.t) (px : float) : float :=
  (Py.max 0 (TaxLot.cost_basis_per_share lot - px) * TaxLot.shares lot)%float.

Definition spec_loss_pct (lot : TaxLot.t) (px : float) : float :=
  let cost := TaxLot.cost_basis_per_share lot in
  if (cost <=? 0)%float then 0%float else ((cost - px) / cost)%float.

Definition spec_emits (self : WashSaleNavigator.t) (market : MarketData.t)
    (lot : TaxLot.t) : bool :=
  match MarketData.price market (TaxLot.symbol lot) with
  | Some px =>
      (WashSaleNavigator.min_loss_dollars self <=? spec_loss_total lot px)%float
      && (WashSaleNavigator.min_loss_pct self <=? spec_loss_pct lot px)%float
  | None => false
  end.

Definition acme_policy : ReplacementPolicy.t :=
  ReplacementPolicy.mk [] [("ACME", ["BRK.A"])].

Definition acme_market : MarketData.t :=
  MarketData.mk demo_today (list_to_map [("ACME", 100); ("BRK.A", 300000)]%float).

Definition acme_lots : list TaxLot.t :=
  [TaxLot.mk "ACME" 1000 (demo_today - 120) 120].

Definition dime_navigator : WashSaleNavigator.t :=
  WashSaleNavigator.mk (ReplacementPolicy.mk [] [("AAA", ["CCC"]); ("BBB", ["CCC"])])
    0.05 0.05.

Definition dime_market : MarketData.t :=
  MarketData.mk demo_today (list_to_map [("AAA", 1); ("BBB", 1); ("CCC", 10)]%float).

Definition dime_lots : list TaxLot.t :=
  [TaxLot.mk "AAA" 1 (demo_today - 120) 1.1; TaxLot.mk "BBB" 1 (demo_today - 120) 1.2].

(** ** Vocabulary of the further properties *)

(** Two lots that differ at most in their acquisition date, and two recent
    buys that differ at most in their share count. *)
Definition same_position (lot lot' : TaxLot.t) : Prop :=
  TaxLot.symbol lot = TaxLot.symbol lot'
  ∧ TaxLot.shares lot = TaxLot.shares lot'
  ∧ TaxLot.cost_basis_per_share lot = TaxLot.cost_basis_per_share lot'.

Definition same_buy (rb rb' : RecentBuy.t) : Prop :=
  RecentBuy.date rb = RecentBuy.date rb' ∧ RecentBuy.symbol rb = RecentBuy.symbol rb'.

(** An item with its block reason replaced. *)
Definition with_block_reason (reason : option string) (it : HarvestItem.t)
  : HarvestItem.t :=
  {| HarvestItem.symbol := HarvestItem.symbol it;
     HarvestItem.lot_index := HarvestItem.lot_index it;
     HarvestItem.shares_to_sell := HarvestItem.shares_to_sell it;
     HarvestItem.sale_price := HarvestItem.sale_price it;
     HarvestItem.loss_dollars := HarvestItem.loss_dollars it;
     HarvestItem.replacement_symbol := HarvestItem.replacement_symbol it;
     HarvestItem.replacement_shares := HarvestItem.replacement_shares it;
     HarvestItem.replacement_price := HarvestItem.replacement_price it;
     HarvestItem.sale_date := HarvestItem.sale_date it;
     HarvestItem.reentry_date_ok_after := HarvestItem.reentry_date_ok_after it;
     HarvestItem.wash_sale_blocked := HarvestItem.wash_sale_blocked it;
     HarvestItem.block_reason := reason;
     HarvestItem.notes := HarvestItem.notes it |}.

(** The second column of the rows with a given first column, in row
    order, and the lookup in a table kept in insertion order. *)
Definition rows_of {K V : Type} `{EqDecision K} (k : K) (rows : list (K * V)) : list V :=
  (filter (λ row, row.1 = k) rows).*2.

Fixpoint assoc_get {K V : Type} `{EqDecision K} (d : list (K * V)) (k : K) : option V :=
  match d with
  | [] => None
  | (k', v) :: rest => if decide (k' = k) then Some v else assoc_get rest k
  end.

(** An item that is not blocked and has no replacement quantity: the one
    kind of item that the fallback of [explain_plan] cannot print. *)
Definition lacks_quantity (it : HarvestItem.t) : Prop :=
  HarvestItem.wash_sale_blocked it = false ∧ HarvestItem.replacement_shares it = None.

(** An item with its lot number moved up by [n]. *)
Definition renumbered (n : nat) (it : HarvestItem.t) : HarvestItem.t :=
  {| HarvestItem.symbol := HarvestItem.symbol it;
     HarvestItem.lot_index := (n + HarvestItem.lot_index it)%nat;
     HarvestItem.shares_to_sell := HarvestItem.shares_to_sell it;
     HarvestItem.sale_price := HarvestItem.sale_price it;
     HarvestItem.loss_dollars := HarvestItem.loss_dollars it;
     HarvestItem.replacement_symbol := HarvestItem.replacement_symbol it;
     HarvestItem.replacement_shares := HarvestItem.replacement_shares it;
     HarvestItem.replacement_price := HarvestItem.replacement_price it;
     HarvestItem.sale_date := HarvestItem.sale_date it;
     HarvestItem.reentry_date_ok_after := HarvestItem.reentry_date_ok_after it;
     HarvestItem.wash_sale_blocked := HarvestItem.wash_sale_blocked it;
     HarvestItem.block_reason := HarvestItem.block_reason it;
     HarvestItem.notes := HarvestItem.notes it |}.

(** * Properties *)

(** ** Floating-point facts used by the engine *)

Section FloatFacts.
Local Open Scope float_scope.

(** A float above the price floor is not zero, so the truth test of
    [px and px > 0.01] never rejects it. *)
Lemma above_floor_truthy (px : float) :
  (0.01 <? px) = true → Py.truthy px = true.
Proof.
  unfold Py.truthy. rewrite FloatAxioms.ltb_spec, FloatAxioms.eqb_spec.
  replace (Prim2SF 0) with (S754_zero false) by reflexivity.
  replace (Prim2SF 0.01)
    with (S754_finite false 5764607523034235 (-59)) by reflexivity.
  destruct (Prim2SF px) as [s | s | | s m e]; try (by destruct s); done.
Qed.

(** Comparison of spec floats is antisymmetric; so away from NaN "not below"
    is "at least". *)
Lemma SFcompare_antisym (x y : spec_float) :
  SFcompare y x = CompOpp <$> SFcompare x y.
Proof.
  destruct x as [sx|sx| |sx mx ex], y as [sy|sy| |sy my ey]; simpl;
    try done; try (by destruct sx); try (by destruct sy);
    try (by destruct sx, sy).
  destruct sx, sy; simpl; try done;
    rewrite (Z.compare_antisym ey ex);
    (destruct (ey ?= ex)%Z; simpl; try done);
    fold (Pos.compare mx my); fold (Pos.compare my mx);
    rewrite (Pos.compare_antisym mx my); by destruct (mx ?= my)%positive.
Qed.

Lemma is_nan_Prim2SF (x : float) : is_nan x = false → Prim2SF x ≠ S754_nan.
Proof.
  unfold is_nan. rewrite FloatAxioms.eqb_spec. intros H Hn. by rewrite Hn in H.
Qed.

Lemma ltb_false_leb (x y : float) :
  is_nan x = false → is_nan y = false →
  (x <? y) = false ↔ (y <=? x) = true.
Proof.
  intros Hx%is_nan_Prim2SF Hy%is_nan_Prim2SF.
  rewrite FloatAxioms.ltb_spec, FloatAxioms.leb_spec.
  unfold SFltb, SFleb. rewrite (SFcompare_antisym (Prim2SF x) (Prim2SF y)).
  assert (∃ c, SFcompare (Prim2SF x) (Prim2SF y) = Some c) as [c ->].
  { destruct (Prim2SF x), (Prim2SF y); simpl; by eauto. }
  destruct c; simpl; split; congruence.
Qed.

Lemma leb_ltb_false (x y : float) : (x <=? y) = true → (y <? x) = false.
Proof.
  rewrite FloatAxioms.ltb_spec, FloatAxioms.leb_spec.
  unfold SFltb, SFleb. rewrite (SFcompare_antisym (Prim2SF x) (Prim2SF y)).
  by destruct (SFcompare (Prim2SF x) (Prim2SF y)) as [[]|].
Qed.

Lemma binary_round_aux_signed s m e l :
  signed s (binary_round_aux prec emax s m e l)
  ∧ binary_round_aux prec emax (negb s) m e l
    = SFopp (binary_round_aux prec emax s m e l).
Proof.
  unfold binary_round_aux.
  destruct (shr_fexp _ _ _ _ _) as [mrs' e'].
  destruct (shr_fexp _ _ _ _ _) as [mrs'' e''].
  destruct (shr_m mrs''); simpl; try done.
  by destruct (_ <=? _)%Z.
Qed.

Lemma binary_round_signed s m e :
  signed s (binary_round prec emax s m e)
  ∧ binary_round prec emax (negb s) m e = SFopp (binary_round prec emax s m e).
Proof.
  unfold binary_round. destruct (shl_align _ _ _) as [mz ez].
  apply binary_round_aux_signed.
Qed.

Lemma signed_true_swap x :
  signed true x →
  SFltb x (S754_zero false) = SFltb (S754_zero false) (SFopp x).
Proof. destruct x as [s|s| |s m e]; simpl; try done; by intros ->. Qed.

Lemma signed_false_swap x :
  signed false x →
  SFltb x (S754_zero false) = false
  ∧ SFltb (S754_zero false) (SFopp x) = false.
Proof. destruct x as [s|s| |s m e]; simpl; try done; by intros ->. Qed.

Lemma SFsub_swap (a b : spec_float) :
  SFltb (SF64sub a b) (S754_zero false) = SFltb (S754_zero false) (SF64sub b a)
  ∧ (SFltb (SF64sub a b) (S754_zero false) = true → SFopp (SF64sub a b) = SF64sub b a).
Proof.
  unfold SF64sub.
  destruct a as [sa|sa| |sa ma ea], b as [sb|sb| |sb mb eb];
    try done; try (by destruct sa); try (by destruct sb); try (by destruct sa, sb).
  unfold SFsub. rewrite (Z.min_comm eb ea).
  set (ez := Z.min ea eb).
  set (x := cond_Zopp sa (Z.pos (shl_align ma ea ez).1)).
  set (y := cond_Zopp sb (Z.pos (shl_align mb eb ez).1)).
  replace (y - x)%Z with (- (x - y))%Z by lia.
  destruct (x - y)%Z as [|d|d]; simpl.
  - done.
  - destruct (binary_round_signed false d ez) as [Hs Ho].
    simpl in Ho. rewrite Ho.
    by destruct (signed_false_swap _ Hs) as [-> ->].
  - destruct (binary_round_signed true d ez) as [Hs Ho].
    simpl in Ho. rewrite Ho.
    by rewrite (signed_true_swap _ Hs).
Qed.

Lemma Prim2SF_inj (x y : float) : Prim2SF x = Prim2SF y → x = y.
Proof.
  intros H. rewrite <- (SF2Prim_Prim2SF x), <- (SF2Prim_Prim2SF y). by rewrite H.
Qed.

(** [-(a - b) if a - b < 0 else 0.0] is [max(0, b - a)]. *)
Lemma neg_part_max (a b : float) :
  (if a - b <? 0 then - (a - b) else 0) = Py.max 0 (b - a).
Proof.
  unfold Py.max.
  rewrite !FloatAxioms.ltb_spec, !FloatAxioms.sub_spec.
  change (Prim2SF 0) with (S754_zero false).
  destruct (SFsub_swap (Prim2SF a) (Prim2SF b)) as [<- Hopp].
  destruct (SFltb _ _) eqn:E; [|done].
  apply Prim2SF_inj. rewrite FloatAxioms.opp_spec, !FloatAxioms.sub_spec. by apply Hopp.
Qed.

End FloatFacts.

(** ** List facts *)

Lemma filter_none {A} (P : A → Prop) `{!∀ x, Decision (P x)} (l : list A) :
  Forall (λ x, ¬ P x) l → filter P l = [].
Proof.
  induction 1 as [|x l Hx _ IH]; [done|].
  by rewrite filter_cons_False.
Qed.

Lemma filter_fmap {A B} (f : A → B) (P : B → Prop) `{!∀ y, Decision (P y)}
    (l : list A) :
  filter P (f <$> l) = f <$> filter (λ x, P (f x)) l.
Proof.
  induction l as [|x l IH]; [done|].
  rewrite fmap_cons, !filter_cons, IH. by destruct (decide (P (f x))).
Qed.

(** Decompositions of a list at its first element with a property are
    unique. *)
Lemma first_split_unique {A} (P : A → Prop) (pre1 pre2 post1 post2 : list A) x1 x2 :
  pre1 ++ x1 :: post1 = pre2 ++ x2 :: post2 →
  Forall (λ y, ¬ P y) pre1 → P x1 →
  Forall (λ y, ¬ P y) pre2 → P x2 →
  pre1 = pre2 ∧ x1 = x2 ∧ post1 = post2.
Proof.
  revert pre2. induction pre1 as [|a pre1 IH]; intros [|b pre2];
    simpl; intros Heq H1 Hx1 H2 Hx2.
  - by injection Heq as <- <-.
  - injection Heq as <- _. by apply Forall_cons_1 in H2 as [? _].
  - injection Heq as -> _. by apply Forall_cons_1 in H1 as [? _].
  - injection Heq as <- Heq.
    apply Forall_cons_1 in H1 as [_ H1]. apply Forall_cons_1 in H2 as [_ H2].
    destruct (IH _ Heq H1 Hx1 H2 Hx2) as (-> & -> & ->). done.
Qed.

(** ** The replacement policy *)

Section Policy.
Import ReplacementPolicy.
Context (p : ReplacementPolicy.t).

Lemma cluster_scan_Some clusters symbol cluster :
  cluster_scan clusters symbol = Some cluster →
  ∃ pre post, clusters = pre ++ cluster :: post
              ∧ symbol ∈ cluster ∧ Forall (λ c, symbol ∉ c) pre.
Proof.
  induction clusters as [|c rest IH]; simpl; [done|].
  case_bool_decide as Hc.
  - intros [= <-]. by exists [], rest.
  - intros (pre & post & -> & ? & ?)%IH.
    exists (c :: pre), post. split_and!; [done..|by constructor].
Qed.

Lemma cluster_scan_None clusters symbol :
  cluster_scan clusters symbol = None → Forall (λ c, symbol ∉ c) clusters.
Proof.
  induction clusters as [|c rest IH]; simpl; [by constructor|].
  case_bool_decide; [done|]. intros ?%IH. by constructor.
Qed.

(** A symbol is always a member of its own cluster. *)
Lemma cluster_for_self symbol : symbol ∈ cluster_for p symbol.
Proof.
  unfold cluster_for.
  destruct (cluster_scan _ _) as [c|] eqn:E; [|by apply elem_of_singleton].
  apply cluster_scan_Some in E as (_ & _ & _ & ? & _).
  by apply elem_of_list_to_set.
Qed.

(** With disjoint clusters, being in the cluster of another symbol is a
    symmetric relation: the two symbols share one cluster. *)
Lemma cluster_for_sym a b :
  disjoint_clusters p → a ∈ cluster_for p b → b ∈ cluster_for p a.
Proof.
  intros Hdisj. unfold cluster_for at 1.
  destruct (cluster_scan (prohibited_equivalents p) b) as [c|] eqn:Eb.
  - intros Ha%elem_of_list_to_set.
    apply cluster_scan_Some in Eb as (pre & post & Hc & Hb & _).
    unfold cluster_for.
    destruct (cluster_scan (prohibited_equivalents p) a) as [c'|] eqn:Ea.
    + apply cluster_scan_Some in Ea as (pre' & post' & Hc' & Ha' & _).
      assert (length pre = length pre') as Hlen.
      { apply (Hdisj (length pre) (length pre') c c' a); [| |done..].
        - rewrite Hc. by apply list_lookup_middle.
        - rewrite Hc'. by apply list_lookup_middle. }
      assert (c' = c) as ->.
      { assert (prohibited_equivalents p !! length pre = Some c) as H1
          by (rewrite Hc; by apply list_lookup_middle).
        assert (prohibited_equivalents p !! length pre = Some c') as H2
          by (rewrite Hc'; by apply list_lookup_middle).
        congruence. }
      by apply elem_of_list_to_set.
    + apply cluster_scan_None in Ea. rewrite Hc in Ea.
      by apply Forall_app in Ea as [_ [? _]%Forall_cons_1].
  - intros ->%elem_of_singleton. apply cluster_for_self.
Qed.

Lemma alias_scan_cases symbol items alts :
  (∃ pre s lst post,
      items = pre ++ (s, lst) :: post
      ∧ Forall (λ kv, symbol ∉ cluster_for p kv.1) pre
      ∧ symbol ∈ cluster_for p s
      ∧ alias_scan p symbol items alts = lst)
  ∨ (Forall (λ kv, symbol ∉ cluster_for p kv.1) items
     ∧ alias_scan p symbol items alts = alts).
Proof.
  induction items as [|[s lst] rest IH]; simpl.
  - right. by split; [constructor|].
  - case_bool_decide as Hs.
    + left. exists [], s, lst, rest. split_and!; [done|constructor|done..].
    + destruct IH as [(pre & s' & lst' & post & -> & ? & ? & ?)|[? ?]].
      * left. exists ((s, lst) :: pre), s', lst', post.
        split_and!; [done|by constructor|done..].
      * right. split; [by constructor|done].
Qed.

Lemma safe_alternatives_outside symbol :
  Forall (λ a, a ∉ cluster_for p symbol) (safe_alternatives p symbol).
Proof.
  unfold safe_alternatives. apply Forall_forall.
  by intros a [? _]%list_elem_of_filter.
Qed.

End Policy.

(** The clusters of the demo policy are disjoint. *)
Lemma demo_policy_disjoint : disjoint_clusters demo_policy.
Proof.
  intros i j c1 c2 x Hi Hj H1 H2.
  destruct i as [|[|[|i]]]; simpl in Hi; try done;
    destruct j as [|[|[|j]]]; simpl in Hj; try done;
    injection Hi as <-; injection Hj as <-; try done;
    rewrite ?elem_of_cons, ?elem_of_nil in H1;
    rewrite ?elem_of_cons, ?elem_of_nil in H2;
    repeat match goal with
           | H : _ ∨ _ |- _ => destruct H
           | H : False |- _ => destruct H
           end; subst; discriminate.
Qed.

(** ** The two scans of the navigator *)

Section Scans.
Import WashSaleNavigator.

Lemma window_scan_cases p symbol sale_date buys :
  (∃ pre rb post,
      buys = pre ++ rb :: post
      ∧ Forall (λ b, ¬ in_window p symbol sale_date b) pre
      ∧ in_window p symbol sale_date rb
      ∧ window_scan (ReplacementPolicy.cluster_for p symbol) sale_date buys
        = (true, window_reason rb))
  ∨ (Forall (λ b, ¬ in_window p symbol sale_date b) buys
     ∧ window_scan (ReplacementPolicy.cluster_for p symbol) sale_date buys
       = (false, "")).
Proof.
  induction buys as [|b rest IH]; simpl.
  - right. by split; [constructor|].
  - destruct (decide (in_window p symbol sale_date b)) as [Hb|Hb].
    + left. exists [], b, rest. split_and!; [done|constructor|done|].
      destruct Hb as [Hs [H0 H30]].
      rewrite bool_decide_true by done.
      by rewrite (proj2 (Z.leb_le _ _) H0), (proj2 (Z.leb_le _ _) H30).
    + assert (bool_decide (RecentBuy.symbol b ∈ ReplacementPolicy.cluster_for p symbol)
              && ((0 <=? Py.days_between sale_date (RecentBuy.date b))
                  && (Py.days_between sale_date (RecentBuy.date b) <=? 30)) = false)
        as ->.
      { apply not_true_is_false. intros H. apply Hb.
        apply andb_prop in H as [Hs [H0 H30]%andb_prop].
        apply bool_decide_eq_true in Hs. split; [done|]. lia. }
      destruct IH as [(pre & rb & post & -> & ? & ? & ?)|[? ?]].
      * left. exists (b :: pre), rb, post. split_and!; [done|by constructor|done..].
      * right. split; [by constructor|done].
Qed.

(** The scan stops at the first buy in the window: what follows it in the
    list has no influence on the result. *)
Lemma window_scan_hit p symbol sale_date pre rb later :
  Forall (λ b, ¬ in_window p symbol sale_date b) pre →
  in_window p symbol sale_date rb →
  window_scan (ReplacementPolicy.cluster_for p symbol) sale_date (pre ++ rb :: later)
  = (true, window_reason rb).
Proof.
  intros Hpre Hrb.
  destruct (window_scan_cases p symbol sale_date (pre ++ rb :: later))
    as [(pre' & rb' & post' & Heq & Hpre' & Hrb' & ->)|[Hnone _]].
  - symmetry in Heq.
    by destruct (first_split_unique _ _ _ _ _ _ _ Heq Hpre' Hrb' Hpre Hrb) as (_ & -> & _).
  - by apply Forall_app in Hnone as [_ [? _]%Forall_cons_1].
Qed.

(** The window at its bounds, for a sale on day 100: a buy 30 days before
    or on the day itself blocks, a buy 31 days before or one day after does
    not, and neither does a buy of a symbol outside the cluster. *)
Lemma window_bounds :
  (_is_blocked demo_navigator "SPY" 100 [RecentBuy.mk 70 "VOO" 1]).1 = true
  ∧ (_is_blocked demo_navigator "SPY" 100 [RecentBuy.mk 100 "VOO" 1]).1 = true
  ∧ (_is_blocked demo_navigator "SPY" 100 [RecentBuy.mk 69 "VOO" 1]).1 = false
  ∧ (_is_blocked demo_navigator "SPY" 100 [RecentBuy.mk 101 "VOO" 1]).1 = false
  ∧ (_is_blocked demo_navigator "SPY" 100 [RecentBuy.mk 90 "QQQ" 1]).1 = false.
Proof. split_and!; vm_compute; reflexivity. Qed.

Lemma pick_scan_cases market alts proceeds :
  (∃ pre alt post rp,
      alts = pre ++ alt :: post
      ∧ Forall (λ a, usable_price market a = None) pre
      ∧ usable_price market alt = Some rp
      ∧ pick_scan alts proceeds market
        = (Some alt, Some (proceeds / rp)%float, Some rp))
  ∨ (Forall (λ a, usable_price market a = None) alts
     ∧ pick_scan alts proceeds market = (None, None, None)).
Proof.
  induction alts as [|a rest IH]; simpl.
  - right. by split; [constructor|].
  - destruct (usable_price market a) as [rp|] eqn:Ha.
    + left. exists [], a, rest, rp. split_and!; [done|constructor|done|].
      unfold usable_price in Ha.
      destruct (MarketData.price market a) as [px|]; [|done].
      destruct (0.01 <? px)%float eqn:Hpx; [|done].
      injection Ha as <-. by rewrite (above_floor_truthy _ Hpx).
    + assert (match MarketData.price market a with
              | Some px =>
                  if Py.truthy px && (0.01 <? px)%float
                  then (Some a, Some (proceeds / px)%float, Some px)
                  else pick_scan rest proceeds market
              | None => pick_scan rest proceeds market
              end = pick_scan rest proceeds market) as ->.
      { unfold usable_price in Ha.
        destruct (MarketData.price market a) as [px|]; [|done].
        destruct (0.01 <? px)%float; [done|]. by rewrite andb_false_r. }
      destruct IH as [(pre & alt & post & rp & -> & ? & ? & ?)|[? ?]].
      * left. exists (a :: pre), alt, post, rp.
        split_and!; [done|by constructor|done..].
      * right. split; [by constructor|done].
Qed.

End Scans.

(** ** The planning loop *)

Section Engine.
Import WashSaleNavigator.
Context (self : WashSaleNavigator.t) (market : MarketData.t)
        (buys : list RecentBuy.t).
Local Abbreviation today := (MarketData.asof market).

(** The fields of an item that do not depend on the verdict. *)
Lemma item_of_fixed idx lot px :
  let it := item_of self market buys (idx, lot, px) in
  HarvestItem.symbol it = TaxLot.symbol lot
  ∧ HarvestItem.lot_index it = idx
  ∧ HarvestItem.shares_to_sell it = Py.round (TaxLot.shares lot) 6
  ∧ HarvestItem.sale_price it = px
  ∧ HarvestItem.loss_dollars it = Py.round (loss_total lot px) 2
  ∧ HarvestItem.sale_date it = today
  ∧ HarvestItem.reentry_date_ok_after it = today + 31.
Proof. unfold item_of. by destruct (verdict self market buys lot px) as [[[[? ?] ?] ?] ?]. Qed.

Lemma lot_step_spec idx lot items total_loss cash_delta :
  lot_step self market buys today idx lot (items, total_loss, cash_delta) =
  match evaluable self market lot with
  | None => Ok (items, total_loss, cash_delta)
  | Some px =>
      let e := (idx, lot, px) in
      _ ← construction market e;
      Ok (items ++ [item_of self market buys e],
          add_unblocked self market buys
            (λ e, HarvestItem.loss_dollars (item_of self market buys e)) total_loss e,
          add_unblocked self market buys (cash_of self market buys) cash_delta e)
  end.
Proof.
  unfold lot_step, evaluable, passes.
  destruct (MarketData.price market (TaxLot.symbol lot)) as [px|]; [|done].
  destruct (_ || _); simpl; [done|].
  unfold construction, loss_accepted, add_unblocked, cash_of, item_of, verdict,
    Py.date_add, reentry_representable.
  destruct (_is_blocked _ _ _ _) as [[] reason]; simpl.
  - destruct (_ && _); simpl; [|done].
    unfold HarvestItem.new, HarvestItem.loss_positive; simpl.
    by destruct (_ <? _)%float.
  - destruct (_pick_replacement _ _ _ _) as [[[alt|] rq] rp]; simpl;
      (destruct (_ && _); simpl; [|done]);
      unfold HarvestItem.new, HarvestItem.loss_positive; simpl;
      by destruct (_ <? _)%float.
Qed.

Lemma construction_Ok e : construction market e = Ok () ↔ constructible market e = true.
Proof.
  unfold construction, constructible.
  destruct (reentry_representable market), (loss_accepted e); by split.
Qed.

Lemma construction_Raise e :
  constructible market e = false → construction market e = Raise (construction_error market).
Proof.
  unfold construction, constructible, construction_error.
  by destruct (reentry_representable market), (loss_accepted e).
Qed.

Lemma plan_loop_spec lots : ∀ idx st,
  plan_loop self market buys today idx lots st =
  if forallb (constructible market) (entries self market idx lots)
  then Ok (loop_result self market buys (entries self market idx lots) st)
  else Raise (construction_error market).
Proof.
  induction lots as [|lot rest IH]; intros idx [[items tl] cd]; cbn [plan_loop entries].
  - unfold loop_result. simpl. by rewrite app_nil_r.
  - rewrite lot_step_spec. destruct (evaluable self market lot) as [px|]; [|apply IH].
    cbn [forallb].
    destruct (constructible market (idx, lot, px)) eqn:Hc.
    + rewrite (proj2 (construction_Ok _) Hc). simpl.
      rewrite IH. destruct (forallb _ _); [|done].
      unfold loop_result. simpl. by rewrite <- app_assoc.
    + by rewrite (construction_Raise _ Hc).
Qed.

Lemma verdict_correct lot px : verdict_of self market buys lot px (verdict self market buys lot px).
Proof.
  unfold verdict.
  destruct (window_scan_cases (policy self) (TaxLot.symbol lot) today buys)
    as [(pre & rb & post & Hb & Hpre & Hrb & Hw)|[Hnone Hw]];
    fold (_is_blocked self (TaxLot.symbol lot) today buys) in Hw; rewrite Hw; simpl.
  - by eapply verdict_window.
  - destruct (pick_scan_cases market
      (ReplacementPolicy.safe_alternatives (policy self) (TaxLot.symbol lot))
      (TaxLot.shares lot * px)%float)
      as [(pre & alt & post & rp & Ha & Hpre & Halt & Hp)|[Hall Hp]];
      fold (_pick_replacement self (TaxLot.symbol lot)
              (TaxLot.shares lot * px)%float market) in Hp; rewrite Hp.
    + by eapply verdict_replaced.
    + by apply verdict_stranded.
Qed.

(** The sanity validation accepts every list of items the loop builds. *)
Lemma sanity_validation_items es :
  sanity_validation self ((item_of self market buys) <$> es) = Ok ().
Proof.
  induction es as [|[[idx lot] px] es IH]; [done|].
  cbn [fmap list_fmap sanity_validation].
  fold (fmap (M:=list) (item_of self market buys) es). rewrite IH. unfold item_of.
  destruct (verdict_correct lot px) as [| pre alt post rp _ _ Halts _ _ _ |]; simpl;
    [done| |done].
  rewrite bool_decide_false; last first.
  { pose proof (safe_alternatives_outside (policy self) (TaxLot.symbol lot)) as Hout.
    rewrite Halts in Hout. by apply Forall_app in Hout as [_ [? _]%Forall_cons_1]. }
  unfold Py.days_between.
  by replace (today + 31 - today <? 31) with false by (symmetry; apply Z.ltb_ge; lia).
Qed.

Lemma build_plan_spec lots :
  build_plan self lots market buys =
  if forallb (constructible market) (entries self market 0 lots)
  then Ok (HarvestPlan.new today ((item_of self market buys) <$> entries self market 0 lots)
             (Py.round
                (foldl (add_unblocked self market buys
                          (λ e, HarvestItem.loss_dollars (item_of self market buys e)))
                   0%float (entries self market 0 lots)) 2)
             (Py.round
                (foldl (add_unblocked self market buys (cash_of self market buys))
                   0%float (entries self market 0 lots)) 2))
  else Raise (construction_error market).
Proof.
  unfold build_plan. rewrite plan_loop_spec.
  destruct (forallb _ _); [|done].
  unfold loop_result. simpl. by rewrite sanity_validation_items.
Qed.

Lemma entries_elem lots : ∀ idx i lot px,
  (i, lot, px) ∈ entries self market idx lots ↔
  (idx ≤ i)%nat ∧ lots !! (i - idx)%nat = Some lot ∧ evaluable self market lot = Some px.
Proof.
  induction lots as [|l rest IH]; intros idx i lot px; cbn [entries].
  - split; [by intros ?%elem_of_nil|by intros (_ & ? & _)].
  - assert ((i, lot, px) ∈ entries self market (S idx) rest ↔
            (idx < i)%nat ∧ (l :: rest) !! (i - idx)%nat = Some lot
            ∧ evaluable self market lot = Some px) as Hrest.
    { rewrite IH. split.
      - intros (? & Hl & ?). split_and!; [lia| |done].
        by replace (i - idx)%nat with (S (i - S idx)) by lia.
      - intros (? & Hl & ?). split_and!; [lia| |done].
        by replace (i - idx)%nat with (S (i - S idx)) in Hl by lia. }
    destruct (evaluable self market l) as [pl|] eqn:El.
    + rewrite elem_of_cons, Hrest. split.
      * intros [[= -> -> ->]|(? & ? & ?)].
        -- split_and!; [lia| |done]. by rewrite Nat.sub_diag.
        -- split_and!; [lia|done..].
      * intros (Hle & Hl & He).
        destruct (decide (i = idx)) as [->|Hne].
        -- left. rewrite Nat.sub_diag in Hl. simpl in Hl. congruence.
        -- right. split_and!; [lia|done..].
    + rewrite Hrest. split.
      * intros (? & ? & ?). split_and!; [lia|done..].
      * intros (Hle & Hl & He).
        destruct (decide (i = idx)) as [->|Hne].
        -- rewrite Nat.sub_diag in Hl. simpl in Hl. congruence.
        -- split_and!; [lia|done..].
Qed.

(** Each lot number occurs in at most one entry. *)
Lemma entries_at lots : ∀ idx i,
  filter (λ e, e.1.1 = i) (entries self market idx lots) =
  match (if decide (idx ≤ i)%nat then lots !! (i - idx)%nat else None) with
  | Some lot =>
      match evaluable self market lot with
      | Some px => [(i, lot, px)]
      | None => []
      end
  | None => []
  end.
Proof.
  induction lots as [|l rest IH]; intros idx i; cbn [entries].
  - by destruct (decide _).
  - assert (filter (λ e, e.1.1 = i) (entries self market (S idx) rest) =
            if decide (i = idx) then []
            else match (if decide (idx ≤ i)%nat
                        then (l :: rest) !! (i - idx)%nat else None) with
                 | Some lot => match evaluable self market lot with
                               | Some px => [(i, lot, px)]
                               | None => []
                               end
                 | None => []
                 end) as Hrest.
    { rewrite IH. destruct (decide (i = idx)) as [->|Hne].
      - rewrite decide_False by lia. done.
      - destruct (decide (S idx ≤ i)%nat), (decide (idx ≤ i)%nat); try lia; [|done].
        by replace (i - idx)%nat with (S (i - S idx)) by lia. }
    destruct (evaluable self market l) as [pl|] eqn:El.
    + rewrite filter_cons. simpl. rewrite Hrest.
      destruct (decide (idx = i)) as [->|Hne].
      * rewrite decide_True by done. rewrite decide_True by lia.
        rewrite Nat.sub_diag. simpl. by rewrite El.
      * by rewrite decide_False by done.
    + rewrite Hrest. destruct (decide (i = idx)) as [->|Hne]; [|done].
      rewrite decide_True by lia. rewrite Nat.sub_diag. simpl. by rewrite El.
Qed.

Lemma items_at (es : list (nat * TaxLot.t * float)) i :
  filter (λ it, HarvestItem.lot_index it = i) ((item_of self market buys) <$> es)
  = (item_of self market buys) <$> filter (λ e, e.1.1 = i) es.
Proof.
  induction es as [|[[idx lot] px] es IH]; [done|].
  rewrite fmap_cons, !filter_cons.
  assert (HarvestItem.lot_index (item_of self market buys (idx, lot, px)) = idx) as Hidx.
  { unfold item_of. by destruct (verdict self market buys lot px) as [[[[? ?] ?] ?] ?]. }
  rewrite Hidx. simpl. destruct (decide (idx = i)); by rewrite IH.
Qed.

(** Sums over the entries that are not blocked. *)
Lemma foldl_add_unblocked f (es : list (nat * TaxLot.t * float)) : ∀ a,
  foldl (add_unblocked self market buys f) a es =
  foldl (λ a x, (a + x)%float) a (f <$> filter (λ e, unblocked (item_of self market buys e)) es).
Proof.
  induction es as [|e es IH]; intros a; [done|].
  rewrite filter_cons. cbn [foldl]. rewrite IH. unfold add_unblocked.
  destruct (decide (unblocked (item_of self market buys e))) as [Hb|Hb]; unfold unblocked in Hb.
  - by rewrite Hb.
  - by apply not_false_is_true in Hb as ->.
Qed.

Lemma cash_term_item lots e :
  e ∈ entries self market 0 lots →
  cash_term lots (item_of self market buys e) = cash_of self market buys e.
Proof.
  destruct e as [[i lot] px]. intros (_ & Hl & _)%entries_elem.
  rewrite Nat.sub_0_r in Hl.
  unfold cash_term, cash_of.
  destruct (item_of_fixed i lot px) as (_ & -> & _ & -> & _).
  rewrite Hl. unfold item_of.
  by destruct (verdict_correct lot px).
Qed.

(** The two totals of a returned plan as sums over its non-blocked items. *)
Lemma plan_totals lots plan :
  build_plan self lots market buys = Ok plan →
  HarvestPlan.total_harvestable_loss plan
    = Py.round (fsum (HarvestItem.loss_dollars
                        <$> filter unblocked (HarvestPlan.items plan))) 2
  ∧ HarvestPlan.simulated_cash_delta plan
    = Py.round (fsum (cash_term lots
                        <$> filter unblocked (HarvestPlan.items plan))) 2.
Proof.
  rewrite build_plan_spec. destruct (forallb _ _); [|done].
  intros [= <-]. simpl. rewrite !foldl_add_unblocked.
  rewrite filter_fmap, <- !list_fmap_compose. unfold fsum, unblocked.
  split; [done|]. do 2 f_equal.
  apply Forall_fmap_ext, Forall_forall. intros e [_ He]%list_elem_of_filter.
  simpl. by rewrite cash_term_item.
Qed.

Lemma plan_items lots plan :
  build_plan self lots market buys = Ok plan →
  HarvestPlan.items plan = (item_of self market buys) <$> entries self market 0 lots
  ∧ forallb (constructible market) (entries self market 0 lots) = true.
Proof.
  rewrite build_plan_spec. destruct (forallb _ _); [|done]. by intros [= <-].
Qed.

Lemma evaluable_Some lot px :
  evaluable self market lot = Some px ↔
  MarketData.price market (TaxLot.symbol lot) = Some px
  ∧ (loss_total lot px <? min_loss_dollars self)%float = false
  ∧ (loss_pct lot px <? min_loss_pct self)%float = false.
Proof.
  unfold evaluable, passes.
  destruct (MarketData.price market (TaxLot.symbol lot)) as [p|]; [|by split; [|intros []]].
  split.
  - destruct (negb _) eqn:E; [|done]. intros [= <-].
    by apply negb_true_iff, orb_false_elim in E.
  - intros ([= <-] & -> & ->). done.
Qed.

Lemma evaluable_None lot :
  evaluable self market lot = None ↔
  ∀ px, MarketData.price market (TaxLot.symbol lot) = Some px →
        (loss_total lot px <? min_loss_dollars self)%float = true
        ∨ (loss_pct lot px <? min_loss_pct self)%float = true.
Proof.
  unfold evaluable, passes.
  destruct (MarketData.price market (TaxLot.symbol lot)) as [p|]; [|by split].
  split.
  - destruct (negb _) eqn:E; [done|]. intros _ px [= <-].
    by apply negb_false_iff, orb_prop in E.
  - intros H. destruct (H p eq_refl) as [-> | ->]; [done|].
    by rewrite orb_true_r.
Qed.

(** The items of a returned plan that carry a given lot number. *)
Lemma plan_item_at lots plan idx lot :
  build_plan self lots market buys = Ok plan →
  lots !! idx = Some lot →
  filter (λ it, HarvestItem.lot_index it = idx) (HarvestPlan.items plan)
  = match evaluable self market lot with
    | Some px => [item_of self market buys (idx, lot, px)]
    | None => []
    end.
Proof.
  intros [-> _]%plan_items Hl.
  rewrite items_at, entries_at. rewrite decide_True by lia.
  rewrite Nat.sub_0_r, Hl. by destruct (evaluable self market lot).
Qed.

End Engine.

(** ** The claims of the specification *)

(** C1. For a lot that is priced and passes both thresholds, the wash-sale
    test of [build_plan] (the call of [_is_blocked] with the snapshot's
    as-of date as the sale date) answers "blocked" exactly when some recent
    buy has its symbol in the lot's cluster and a date between 0 and 30 days
    before the sale date, both bounds included. Then the lot's item is
    blocked and its reason is the one that names the date and the symbol of
    the first such buy of the list; the buys after that one do not matter.
    When no buy is in the window the item carries no such reason. *)
Theorem wash_sale_test (self : WashSaleNavigator.t) (lots : list TaxLot.t)
    (market : MarketData.t) (buys : list RecentBuy.t) (plan : HarvestPlan.t)
    (idx : nat) (lot : TaxLot.t) (px : float) :
  WashSaleNavigator.build_plan self lots market buys = Ok plan →
  lots !! idx = Some lot →
  MarketData.price market (TaxLot.symbol lot) = Some px →
  (WashSaleNavigator.loss_total lot px <? WashSaleNavigator.min_loss_dollars self)%float
    = false →
  (WashSaleNavigator.loss_pct lot px <? WashSaleNavigator.min_loss_pct self)%float
    = false →
  let sale_date := MarketData.asof market in
  let hit := in_window (WashSaleNavigator.policy self) (TaxLot.symbol lot) sale_date in
  let blocked :=
    (WashSaleNavigator._is_blocked self (TaxLot.symbol lot) sale_date buys).1 in
  ∃ it,
    filter (λ it, HarvestItem.lot_index it = idx) (HarvestPlan.items plan) = [it]
    ∧ (blocked = true ↔ ∃ rb, rb ∈ buys ∧ hit rb)
    ∧ (blocked = true →
       ∃ pre rb post,
         buys = pre ++ rb :: post
         ∧ Forall (λ b, ¬ hit b) pre
         ∧ hit rb
         ∧ (∀ later,
              WashSaleNavigator._is_blocked self (TaxLot.symbol lot) sale_date
                (pre ++ rb :: later)
              = (true, WashSaleNavigator.window_reason rb))
         ∧ HarvestItem.wash_sale_blocked it = true
         ∧ HarvestItem.block_reason it = Some (WashSaleNavigator.window_reason rb))
    ∧ (blocked = false →
       HarvestItem.block_reason it = None
       ∨ HarvestItem.block_reason it = Some "No safe replacement with known price").
Proof.
  intros Hplan Hl Hpx H1 H2 sale_date hit blocked.
  assert (evaluable self market lot = Some px) as He by by apply evaluable_Some.
  exists (item_of self market buys (idx, lot, px)).
  split; [by rewrite (plan_item_at _ _ _ _ _ _ _ Hplan Hl), He|].
  subst sale_date hit blocked. unfold item_of.
  destruct (verdict_correct self market buys lot px)
    as [pre rb post Hb Hpre Hrb Hw | pre alt post rp Hnone Hw _ _ _ _ | Hnone Hw _ _];
    rewrite Hw; simpl.
  - split_and!.
    + split; [|done]. intros _. exists rb. split; [|done].
      rewrite Hb. apply elem_of_app. right. apply elem_of_cons. by left.
    + intros _. exists pre, rb, post. split_and!; try done.
      intros later. by apply window_scan_hit.
    + done.
  - split_and!; [|done|by left].
    split; [done|]. intros (rb & Hin & Hrb).
    rewrite Forall_forall in Hnone. by destruct (Hnone rb Hin).
  - split_and!; [|done|by right].
    split; [done|]. intros (rb & Hin & Hrb).
    rewrite Forall_forall in Hnone. by destruct (Hnone rb Hin).
Qed.

(** C1 on the demo data: the AAPL lot, with an AAPL buy 15 days before the
    as-of date, is blocked. *)
Lemma wash_sale_test_demo :
  ∃ plan,
    WashSaleNavigator.build_plan demo_navigator demo_lots demo_market demo_buys = Ok plan
    ∧ ∃ it,
        filter (λ it, HarvestItem.lot_index it = 2%nat) (HarvestPlan.items plan) = [it]
        ∧ HarvestItem.wash_sale_blocked it = true.
Proof.
  eexists. split; [vm_compute; reflexivity|].
  edestruct (wash_sale_test demo_navigator demo_lots demo_market demo_buys)
    with (idx := 2%nat) (lot := TaxLot.mk "AAPL" 40 (demo_today - 400) 195)
         (px := 178%float)
    as (it & Hit & _ & Hblocked & _).
  - vm_compute. reflexivity.
  - reflexivity.
  - vm_compute. reflexivity.
  - vm_compute. reflexivity.
  - vm_compute. reflexivity.
  - exists it. split; [exact Hit|].
    destruct Hblocked as (pre & rb & post & _ & _ & _ & _ & Hb & _).
    + vm_compute. reflexivity.
    + exact Hb.
Defined.

(** C2. For a lot that is priced, passes both thresholds and is not blocked
    by the wash-sale test, [build_plan] walks the policy's
    [safe_alternatives] of the lot's symbol in order and takes the first one
    whose market price is known and greater than 0.01: the replacement
    quantity is [proceeds / replacement_price] with
    [proceeds = shares * sale_price] (the item stores it rounded to 6
    places). When no alternative has such a price the item is still
    emitted, blocked, with the reason "No safe replacement with known
    price" and no replacement. *)
Theorem replacement_selection (self : WashSaleNavigator.t) (lots : list TaxLot.t)
    (market : MarketData.t) (buys : list RecentBuy.t) (plan : HarvestPlan.t)
    (idx : nat) (lot : TaxLot.t) (px : float) :
  WashSaleNavigator.build_plan self lots market buys = Ok plan →
  lots !! idx = Some lot →
  MarketData.price market (TaxLot.symbol lot) = Some px →
  (WashSaleNavigator.loss_total lot px <? WashSaleNavigator.min_loss_dollars self)%float
    = false →
  (WashSaleNavigator.loss_pct lot px <? WashSaleNavigator.min_loss_pct self)%float
    = false →
  (WashSaleNavigator._is_blocked self (TaxLot.symbol lot) (MarketData.asof market) buys).1
    = false →
  let proceeds := (TaxLot.shares lot * px)%float in
  let alts :=
    ReplacementPolicy.safe_alternatives (WashSaleNavigator.policy self) (TaxLot.symbol lot) in
  ∃ it,
    filter (λ it, HarvestItem.lot_index it = idx) (HarvestPlan.items plan) = [it]
    ∧ HarvestItem.sale_price it = px
    ∧ ((∃ pre alt post rp,
          alts = pre ++ alt :: post
          ∧ Forall (λ a, usable_price market a = None) pre
          ∧ MarketData.price market alt = Some rp
          ∧ (0.01 <? rp)%float = true
          ∧ WashSaleNavigator._pick_replacement self (TaxLot.symbol lot) proceeds market
            = (Some alt, Some (proceeds / rp)%float, Some rp)
          ∧ HarvestItem.wash_sale_blocked it = false
          ∧ HarvestItem.block_reason it = None
          ∧ HarvestItem.replacement_symbol it = Some alt
          ∧ HarvestItem.replacement_price it = Some rp
          ∧ HarvestItem.replacement_shares it = Some (Py.round (proceeds / rp)%float 6))
       ∨ (Forall (λ a, usable_price market a = None) alts
          ∧ WashSaleNavigator._pick_replacement self (TaxLot.symbol lot) proceeds market
            = (None, None, None)
          ∧ HarvestItem.wash_sale_blocked it = true
          ∧ HarvestItem.block_reason it = Some "No safe replacement with known price"
          ∧ HarvestItem.replacement_symbol it = None
          ∧ HarvestItem.replacement_price it = None
          ∧ HarvestItem.replacement_shares it = None)).
Proof.
  intros Hplan Hl Hpx H1 H2 Hfree proceeds alts.
  assert (evaluable self market lot = Some px) as He by by apply evaluable_Some.
  exists (item_of self market buys (idx, lot, px)).
  split; [by rewrite (plan_item_at _ _ _ _ _ _ _ Hplan Hl), He|].
  split; [by destruct (item_of_fixed self market buys idx lot px) as (_ & _ & _ & ? & _)|].
  subst proceeds alts. unfold item_of.
  destruct (verdict_correct self market buys lot px)
    as [pre rb post _ _ _ Hw | pre alt post rp _ _ Halts Hpre Halt Hpick | _ _ Hall Hpick].
  - by rewrite Hw in Hfree.
  - left. exists pre, alt, post, rp. simpl.
    unfold usable_price in Halt.
    destruct (MarketData.price market alt) as [p|]; [|done].
    destruct (0.01 <? p)%float eqn:Hp; [|done]. injection Halt as ->.
    by split_and!.
  - right. by split_and!.
Qed.

(** C2 on the demo data: the QQQ lot, which no recent buy blocks. *)
Lemma replacement_selection_demo :
  ∃ plan,
    WashSaleNavigator.build_plan demo_navigator demo_lots demo_market demo_buys = Ok plan
    ∧ ∃ it,
        filter (λ it, HarvestItem.lot_index it = 1%nat) (HarvestPlan.items plan) = [it]
        ∧ HarvestItem.sale_price it = 455%float.
Proof.
  eexists. split; [vm_compute; reflexivity|].
  edestruct (replacement_selection demo_navigator demo_lots demo_market demo_buys)
    with (idx := 1%nat) (lot := TaxLot.mk "QQQ" 30 (demo_today - 90) 480)
         (px := 455%float)
    as (it & Hit & Hpx & _).
  - vm_compute. reflexivity.
  - reflexivity.
  - vm_compute. reflexivity.
  - vm_compute. reflexivity.
  - vm_compute. reflexivity.
  - vm_compute. reflexivity.
  - exists it. split; [exact Hit|exact Hpx].
Defined.

(** C3, counterexample. 1000 shares sold at 100 and replaced at 300000 a
    share: the replacement quantity is 0.3333333333333333, stored as
    0.333333. The plan's cash delta is 0.0, because the loop subtracts the
    unrounded quantity times the price from the proceeds; computed from the
    rounded values of the item it would be 0.1. And the totals are rounded
    once more after the accumulation: two items with losses 0.1 and 0.2 sum
    to 0.30000000000000004, and the plan's total is 0.3. *)
Lemma cash_delta_not_from_rounded_values :
  (∃ plan,
     WashSaleNavigator.build_plan (WashSaleNavigator.mk acme_policy 200 0.05)
       acme_lots acme_market [] = Ok plan
     ∧ (HarvestItem.replacement_shares <$> filter unblocked (HarvestPlan.items plan))
       = [Some 0.333333%float]
     ∧ HarvestPlan.simulated_cash_delta plan = 0%float
     ∧ Py.round (fsum (stored_cash_term <$> filter unblocked (HarvestPlan.items plan))) 2
       = 0.1%float
     ∧ Py.round (fsum (spec_cash_term <$> filter unblocked (HarvestPlan.items plan))) 2
       = 0.1%float
     ∧ HarvestPlan.simulated_cash_delta plan
       ≠ fsum (stored_cash_term <$> filter unblocked (HarvestPlan.items plan))
     ∧ HarvestPlan.simulated_cash_delta plan
       ≠ fsum (spec_cash_term <$> filter unblocked (HarvestPlan.items plan))
     ∧ HarvestPlan.simulated_cash_delta plan
       ≠ Py.round (fsum (stored_cash_term <$> filter unblocked (HarvestPlan.items plan))) 2
     ∧ HarvestPlan.simulated_cash_delta plan
       ≠ Py.round (fsum (spec_cash_term <$> filter unblocked (HarvestPlan.items plan))) 2)
  ∧ (∃ plan,
       WashSaleNavigator.build_plan dime_navigator dime_lots dime_market [] = Ok plan
       ∧ (HarvestItem.loss_dollars <$> filter unblocked (HarvestPlan.items plan))
         = [0.1; 0.2]%float
       ∧ HarvestPlan.total_harvestable_loss plan = 0.3%float
       ∧ HarvestPlan.total_harvestable_loss plan
         ≠ fsum (HarvestItem.loss_dollars <$> filter unblocked (HarvestPlan.items plan))).
Proof.
  split.
  - eexists. split; [vm_compute; reflexivity|].
    split_and!; try (vm_compute; reflexivity);
      intros H; apply (f_equal (λ x, (x =? 0)%float)) in H;
      vm_compute in H; discriminate H.
  - eexists. split; [vm_compute; reflexivity|].
    split_and!; try (vm_compute; reflexivity).
    intros H. apply (f_equal (λ x, (x =? 0.3)%float)) in H.
    vm_compute in H. discriminate H.
Qed.

(** C3, amended. In every returned plan [total_harvestable_loss] is the
    sum, rounded to 2 places, of the [loss_dollars] of the non-blocked
    items, each of which was rounded to 2 places when its item was built;
    [simulated_cash_delta] is the sum, rounded to 2 places, over the
    non-blocked items of [proceeds - repl_cost] computed from unrounded
    values: the lot's share count times the sale price, minus the quantity
    [proceeds / replacement_price] times the replacement price. Both sums
    run left to right from [0.0]. The share counts of an item are rounded
    to 6 places when the item is built. *)
Theorem plan_totals_rounding (self : WashSaleNavigator.t) (lots : list TaxLot.t)
    (market : MarketData.t) (buys : list RecentBuy.t) (plan : HarvestPlan.t) :
  WashSaleNavigator.build_plan self lots market buys = Ok plan →
  HarvestPlan.total_harvestable_loss plan
    = Py.round (fsum (HarvestItem.loss_dollars
                        <$> filter unblocked (HarvestPlan.items plan))) 2
  ∧ HarvestPlan.simulated_cash_delta plan
    = Py.round (fsum (cash_term lots <$> filter unblocked (HarvestPlan.items plan))) 2
  ∧ Forall (λ it,
        ∃ lot,
          lots !! HarvestItem.lot_index it = Some lot
          ∧ HarvestItem.loss_dollars it
            = Py.round (WashSaleNavigator.loss_total lot (HarvestItem.sale_price it)) 2
          ∧ HarvestItem.shares_to_sell it = Py.round (TaxLot.shares lot) 6
          ∧ HarvestItem.replacement_shares it
            = (λ rp, Py.round (TaxLot.shares lot * HarvestItem.sale_price it / rp)%float 6)
                <$> HarvestItem.replacement_price it)
      (HarvestPlan.items plan).
Proof.
  intros Hplan.
  destruct (plan_totals self market buys lots plan Hplan) as [Htotal Hcash].
  split_and!; [done..|].
  apply plan_items in Hplan as [-> _].
  apply Forall_fmap, Forall_forall.
  intros [[idx lot] px] (_ & Hl & _)%entries_elem.
  rewrite Nat.sub_0_r in Hl. cbv beta delta [compose].
  destruct (item_of_fixed self market buys idx lot px) as (_ & -> & -> & -> & -> & _).
  exists lot. split_and!; [done..|].
  unfold item_of. by destruct (verdict_correct self market buys lot px).
Qed.

(** C3, amended, on the demo data. *)
Lemma plan_totals_rounding_demo :
  ∃ plan,
    WashSaleNavigator.build_plan demo_navigator demo_lots demo_market demo_buys = Ok plan
    ∧ HarvestPlan.total_harvestable_loss plan
      = Py.round (fsum (HarvestItem.loss_dollars
                          <$> filter unblocked (HarvestPlan.items plan))) 2
    ∧ HarvestPlan.simulated_cash_delta plan
      = Py.round (fsum (cash_term demo_lots
                          <$> filter unblocked (HarvestPlan.items plan))) 2.
Proof.
  eexists. split; [vm_compute; reflexivity|].
  edestruct (plan_totals_rounding demo_navigator demo_lots demo_market demo_buys)
    as (Htotal & Hcash & _).
  - vm_compute. reflexivity.
  - split; [exact Htotal|exact Hcash].
Defined.

(** C4, counterexample. [build_plan] does not return a plan for every
    input: the construction of an item can raise. A lot held short (negative
    shares) that passes negative thresholds has a negative rounded loss,
    which the [loss_dollars] validator of [HarvestItem] rejects; and for an
    as-of date in December 9999 the re-entry date is not a date. *)
Lemma build_plan_can_abort :
  WashSaleNavigator.build_plan
    (WashSaleNavigator.mk demo_policy (-1000) 0)
    [TaxLot.mk "SPY" (-10) (demo_today - 120) 520] demo_market []
  = Raise (ValidationError "loss_dollars must be >= 0")
  ∧ WashSaleNavigator.build_plan demo_navigator demo_lots
      (MarketData.mk 3652050 (list_to_map demo_prices)) demo_buys
    = Raise (OverflowError "date value out of range").
Proof. split; vm_compute; reflexivity. Qed.

(** C4, amended. The validation pass at the end of [build_plan] never
    fails: it accepts the items of every run of the loop, so neither
    "Replacement is substantially identical" nor "Re-entry date violates
    31-day rule" (nor any other [ValueError]) is raised. [build_plan]
    returns a plan exactly when every item can be constructed, that is when
    for every priced lot that passes both thresholds the as-of date plus 31
    days is a date and the rounded loss is not negative. *)
Theorem validation_never_fails (self : WashSaleNavigator.t) (lots : list TaxLot.t)
    (market : MarketData.t) (buys : list RecentBuy.t) :
  (∀ items total_loss cash_delta,
     WashSaleNavigator.plan_loop self market buys (MarketData.asof market) 0 lots
       ([], 0%float, 0%float) = Ok (items, total_loss, cash_delta) →
     WashSaleNavigator.sanity_validation self items = Ok ())
  ∧ (∀ msg, WashSaleNavigator.build_plan self lots market buys ≠ Raise (ValueError msg))
  ∧ ((∃ plan, WashSaleNavigator.build_plan self lots market buys = Ok plan) ↔
     ∀ lot px,
       lot ∈ lots →
       MarketData.price market (TaxLot.symbol lot) = Some px →
       (WashSaleNavigator.loss_total lot px <? WashSaleNavigator.min_loss_dollars self)%float
         = false →
       (WashSaleNavigator.loss_pct lot px <? WashSaleNavigator.min_loss_pct self)%float
         = false →
       Py.date_add (MarketData.asof market) 31 = Ok (MarketData.asof market + 31)
       ∧ (Py.round (WashSaleNavigator.loss_total lot px) 2 <? 0)%float = false).
Proof.
  split_and!.
  - intros items tl cd. rewrite plan_loop_spec.
    destruct (forallb _ _); [|done]. intros [= <- _ _]. simpl.
    apply sanity_validation_items.
  - intros msg. rewrite build_plan_spec. destruct (forallb _ _); [done|].
    unfold construction_error. by destruct (reentry_representable market).
  - rewrite build_plan_spec.
    assert (∀ lot px, Py.date_add (MarketData.asof market) 31
                        = Ok (MarketData.asof market + 31)
                      ∧ (Py.round (WashSaleNavigator.loss_total lot px) 2 <? 0)%float = false
                      ↔ ∀ idx, constructible market (idx, lot, px) = true) as Hc.
    { intros lot px. unfold constructible, reentry_representable, loss_accepted, Py.date_add.
      simpl. destruct (_ && _), (_ <? _)%float; simpl; split;
        try done; try (by intros [? ?]); intros H; by specialize (H 0%nat). }
    split.
    + intros [plan Hplan] lot px Hin Hpx H1 H2.
      destruct (forallb _ _) eqn:Hall; [|done]. rewrite forallb_forall in Hall.
      apply list_elem_of_lookup in Hin as [i Hi].
      apply (proj2 (Hc lot px)). intros idx.
      assert ((i, lot, px) ∈ entries self market 0 lots) as He.
      { apply entries_elem. rewrite Nat.sub_0_r. split_and!; [lia|done|].
        by apply evaluable_Some. }
      apply list_elem_of_In, Hall in He.
      unfold constructible in *. by destruct (reentry_representable market).
    + intros H. eexists.
      replace (forallb _ _) with true; [done|]. symmetry.
      apply forallb_forall. intros [[i lot] px] Hin.
      apply list_elem_of_In, entries_elem in Hin as (_ & Hl & (Hpx & H1 & H2)%evaluable_Some).
      apply (proj1 (Hc lot px)). apply H; [|done..]. by eapply list_elem_of_lookup_2.
Qed.

(** C5, counterexample. A lot of 10^12 shares bought at 5e-10 and priced at
    1e-10 has lost 400 dollars and 80% of its cost basis, which reaches the
    thresholds 200 and 50%; the engine divides by [max(cost, 1e-9)], finds
    40% and emits nothing. And with a NaN dollar threshold no loss is below
    the threshold, so the demo's NVDA lot (a loss of 150) gets an item
    although 150 is not at least NaN. *)
Lemma emission_differs_from_thresholds_met :
  (let self := WashSaleNavigator.mk demo_policy 200 0.5 in
   let lot := TaxLot.mk "PENNY" 1e12 (demo_today - 120) 5e-10 in
   let market := MarketData.mk demo_today (list_to_map [("PENNY", 1e-10%float)]) in
   spec_emits self market lot = true
   ∧ ∃ plan,
       WashSaleNavigator.build_plan self [lot] market [] = Ok plan
       ∧ HarvestPlan.items plan = [])
  ∧ (let self := WashSaleNavigator.mk demo_policy nan 0.05 in
     ∃ lot plan,
       demo_lots !! 4%nat = Some lot
       ∧ spec_emits self demo_market lot = false
       ∧ WashSaleNavigator.build_plan self demo_lots demo_market demo_buys = Ok plan
       ∧ length (filter (λ it, HarvestItem.lot_index it = 4%nat) (HarvestPlan.items plan))
         = 1%nat).
Proof.
  split.
  - split; [vm_compute; reflexivity|].
    eexists. split; vm_compute; reflexivity.
  - eexists. eexists. split; [reflexivity|].
    split; [vm_compute; reflexivity|].
    split; vm_compute; reflexivity.
Qed.

(** C5, amended. In every returned plan a lot of the input has exactly one
    item when the market has a price for its symbol and neither
    [loss_total < min_loss_dollars] nor [loss_pct < min_loss_pct] holds, and
    no item otherwise (a missing price or a quantity below its threshold).
    Here [loss_total = max(0, cost_basis - price) * shares], and [loss_pct]
    is [(cost_basis - price) / max(cost_basis, 1e-9)] for a cost basis above
    0, which is the loss relative to the cost basis from 1e-9 on, and 0 for
    a cost basis [<= 0]. As long as no NaN is compared, "not below" is the
    same as "at least". *)
Theorem emission_rule (self : WashSaleNavigator.t) (lots : list TaxLot.t)
    (market : MarketData.t) (buys : list RecentBuy.t) (plan : HarvestPlan.t)
    (idx : nat) (lot : TaxLot.t) :
  WashSaleNavigator.build_plan self lots market buys = Ok plan →
  lots !! idx = Some lot →
  let count :=
    length (filter (λ it, HarvestItem.lot_index it = idx) (HarvestPlan.items plan)) in
  let cost := TaxLot.cost_basis_per_share lot in
  let min_d := WashSaleNavigator.min_loss_dollars self in
  let min_p := WashSaleNavigator.min_loss_pct self in
  (count = 1%nat ↔
     ∃ px, MarketData.price market (TaxLot.symbol lot) = Some px
           ∧ (WashSaleNavigator.loss_total lot px <? min_d)%float = false
           ∧ (WashSaleNavigator.loss_pct lot px <? min_p)%float = false)
  ∧ (count = 0%nat ↔
     ∀ px, MarketData.price market (TaxLot.symbol lot) = Some px →
           (WashSaleNavigator.loss_total lot px <? min_d)%float = true
           ∨ (WashSaleNavigator.loss_pct lot px <? min_p)%float = true)
  ∧ (count = 0%nat ∨ count = 1%nat)
  ∧ (∀ px,
       WashSaleNavigator.loss_total lot px
         = (Py.max 0 (cost - px) * TaxLot.shares lot)%float
       ∧ WashSaleNavigator.loss_pct lot px
         = (if (0 <? cost)%float then ((cost - px) / Py.max cost 1e-9)%float else 0%float)
       ∧ ((cost <=? 0)%float = true → WashSaleNavigator.loss_pct lot px = 0%float)
       ∧ ((0 <? cost)%float = true → (cost <? 1e-9)%float = false →
          WashSaleNavigator.loss_pct lot px = ((cost - px) / cost)%float)
       ∧ (is_nan (WashSaleNavigator.loss_total lot px) = false → is_nan min_d = false →
          (WashSaleNavigator.loss_total lot px <? min_d)%float = false
          ↔ (min_d <=? WashSaleNavigator.loss_total lot px)%float = true)
       ∧ (is_nan (WashSaleNavigator.loss_pct lot px) = false → is_nan min_p = false →
          (WashSaleNavigator.loss_pct lot px <? min_p)%float = false
          ↔ (min_p <=? WashSaleNavigator.loss_pct lot px)%float = true)).
Proof.
  intros Hplan Hl count cost min_d min_p. subst count cost min_d min_p.
  rewrite (plan_item_at _ _ _ _ _ _ _ Hplan Hl).
  split_and!.
  - split.
    + destruct (evaluable self market lot) as [px|] eqn:He; [|done].
      intros _. exists px. by apply evaluable_Some.
    + intros (px & Hpx). apply evaluable_Some in Hpx. by rewrite Hpx.
  - split.
    + destruct (evaluable self market lot) as [px|] eqn:He; [done|].
      intros _. by apply evaluable_None.
    + intros Hnone. apply evaluable_None in Hnone. by rewrite Hnone.
  - destruct (evaluable self market lot); [by right|by left].
  - intros px. split_and!.
    + unfold WashSaleNavigator.loss_total. by rewrite neg_part_max.
    + done.
    + intros Hle. unfold WashSaleNavigator.loss_pct.
      by rewrite (leb_ltb_false _ _ Hle).
    + intros Hpos Hbig. unfold WashSaleNavigator.loss_pct, Py.max.
      by rewrite Hpos, Hbig.
    + apply ltb_false_leb.
    + apply ltb_false_leb.
Qed.

(** C5, amended, on the demo data: the SPY lot has lost 3.8% and gets no
    item, the QQQ lot gets one. *)
Lemma emission_rule_demo :
  ∃ plan,
    WashSaleNavigator.build_plan demo_navigator demo_lots demo_market demo_buys = Ok plan
    ∧ length (filter (λ it, HarvestItem.lot_index it = 0%nat) (HarvestPlan.items plan))
      = 0%nat
    ∧ length (filter (λ it, HarvestItem.lot_index it = 1%nat) (HarvestPlan.items plan))
      = 1%nat.
Proof.
  eexists. split; [vm_compute; reflexivity|]. split.
  - edestruct (emission_rule demo_navigator demo_lots demo_market demo_buys)
      with (idx := 0%nat) (lot := TaxLot.mk "SPY" 50 (demo_today - 120) 520)
      as (_ & [_ Hzero] & _).
    + vm_compute. reflexivity.
    + reflexivity.
    + apply Hzero. intros px Hpx. vm_compute in Hpx. injection Hpx as <-.
      right. vm_compute. reflexivity.
  - edestruct (emission_rule demo_navigator demo_lots demo_market demo_buys)
      with (idx := 1%nat) (lot := TaxLot.mk "QQQ" 30 (demo_today - 90) 480)
      as ([_ Hone] & _).
    + vm_compute. reflexivity.
    + reflexivity.
    + apply Hone. exists 455%float.
      split_and!; vm_compute; reflexivity.
Defined.

(** C6. [safe_alternatives symbol] starts from the list keyed directly on
    [symbol] when that list is not empty, and otherwise from the list of the
    first entry of the alternatives table, in declaration order, whose key
    has [symbol] in its cluster (from the empty list when there is no such
    entry); it returns that list without the members of [symbol]'s own
    cluster, in the same order. It always returns a list: when nothing
    survives the filter the result is the empty list. When the clusters of
    the policy are disjoint, as the data model requires, the key of that
    entry has [symbol] in its cluster exactly when it lies in [symbol]'s
    cluster: the two symbols share a cluster. *)
Theorem safe_alternatives_lookup (p : ReplacementPolicy.t) (symbol : string) :
  ∃ ranked : list string,
    ReplacementPolicy.safe_alternatives p symbol
      = filter (λ a, a ∉ ReplacementPolicy.cluster_for p symbol) ranked
    ∧ (∀ direct,
         ReplacementPolicy.dict_get (ReplacementPolicy.recommended_alternatives p) symbol
           = Some direct →
         direct ≠ [] → ranked = direct)
    ∧ (default [] (ReplacementPolicy.dict_get
                     (ReplacementPolicy.recommended_alternatives p) symbol) = [] →
         (∃ pre s lst post,
             ReplacementPolicy.recommended_alternatives p = pre ++ (s, lst) :: post
             ∧ Forall (λ kv, symbol ∉ ReplacementPolicy.cluster_for p kv.1) pre
             ∧ symbol ∈ ReplacementPolicy.cluster_for p s
             ∧ ranked = lst)
         ∨ (Forall (λ kv, symbol ∉ ReplacementPolicy.cluster_for p kv.1)
              (ReplacementPolicy.recommended_alternatives p)
            ∧ ranked = []))
    ∧ Forall (λ a, a ∉ ReplacementPolicy.cluster_for p symbol)
        (ReplacementPolicy.safe_alternatives p symbol)
    ∧ (Forall (λ a, a ∈ ReplacementPolicy.cluster_for p symbol) ranked →
         ReplacementPolicy.safe_alternatives p symbol = [])
    ∧ (disjoint_clusters p →
       ∀ s, symbol ∈ ReplacementPolicy.cluster_for p s
            ↔ s ∈ ReplacementPolicy.cluster_for p symbol).
Proof.
  assert (disjoint_clusters p →
          ∀ s, symbol ∈ ReplacementPolicy.cluster_for p s
               ↔ s ∈ ReplacementPolicy.cluster_for p symbol) as Hsym.
  { intros Hdisj s. split; by apply cluster_for_sym. }
  unfold ReplacementPolicy.safe_alternatives.
  set (table := ReplacementPolicy.recommended_alternatives p).
  set (cluster := ReplacementPolicy.cluster_for p symbol).
  destruct (default [] (ReplacementPolicy.dict_get table symbol)) as [|a direct] eqn:Hd.
  - rewrite bool_decide_true by done.
    exists (ReplacementPolicy.alias_scan p symbol table []).
    split_and!.
    + done.
    + intros direct Hget Hne. rewrite Hget in Hd. simpl in Hd. congruence.
    + intros _.
      destruct (alias_scan_cases p symbol table [])
        as [(pre & s & lst & post & ? & ? & ? & ?)|[? ?]]; [left|right]; eauto 10.
    + apply Forall_forall. by intros x [? _]%list_elem_of_filter.
    + intros Hall. apply filter_none. eapply Forall_impl; [exact Hall|].
      simpl. tauto.
    + done.
  - rewrite bool_decide_false by done.
    exists (a :: direct). split_and!.
    + done.
    + intros d Hget _. rewrite Hget in Hd. simpl in Hd. congruence.
    + done.
    + apply Forall_forall. by intros x [? _]%list_elem_of_filter.
    + intros Hall. apply filter_none. eapply Forall_impl; [exact Hall|].
      simpl. tauto.
    + done.
Qed.

(** C7. In every plan that [build_plan] returns, every item, blocked or
    not, has the market snapshot's as-of date as its sale date and that date
    plus 31 days as its re-entry date; so the two dates of a non-blocked item
    are at least 31 days apart. *)
Theorem item_dates (self : WashSaleNavigator.t) (lots : list TaxLot.t)
    (market : MarketData.t) (buys : list RecentBuy.t) (plan : HarvestPlan.t) :
  WashSaleNavigator.build_plan self lots market buys = Ok plan →
  Forall (λ it,
      HarvestItem.sale_date it = MarketData.asof market
      ∧ Py.date_add (HarvestItem.sale_date it) 31
        = Ok (HarvestItem.reentry_date_ok_after it)
      ∧ HarvestItem.reentry_date_ok_after it = HarvestItem.sale_date it + 31
      ∧ (HarvestItem.wash_sale_blocked it = false →
         31 ≤ Py.days_between (HarvestItem.reentry_date_ok_after it)
                (HarvestItem.sale_date it)))
    (HarvestPlan.items plan).
Proof.
  rewrite build_plan_spec.
  destruct (forallb _ _) eqn:Hall; [|done]. intros [= <-]. simpl.
  rewrite forallb_forall in Hall.
  apply Forall_fmap, Forall_forall. intros [[idx lot] px] Hin.
  apply list_elem_of_In, Hall in Hin.
  apply andb_prop in Hin as [Hdate _].
  cbv beta delta [compose].
  destruct (item_of_fixed self market buys idx lot px)
    as (_ & _ & _ & _ & _ & -> & ->).
  unfold Py.date_add, Py.days_between.
  unfold reentry_representable in Hdate. rewrite Hdate.
  split_and!; [done..|]. intros _. lia.
Qed.

(** C7 on the demo data. *)
Lemma item_dates_demo :
  ∃ plan,
    WashSaleNavigator.build_plan demo_navigator demo_lots demo_market demo_buys = Ok plan
    ∧ Forall (λ it,
        HarvestItem.sale_date it = MarketData.asof demo_market
        ∧ Py.date_add (HarvestItem.sale_date it) 31
          = Ok (HarvestItem.reentry_date_ok_after it)
        ∧ HarvestItem.reentry_date_ok_after it = HarvestItem.sale_date it + 31
        ∧ (HarvestItem.wash_sale_blocked it = false →
           31 ≤ Py.days_between (HarvestItem.reentry_date_ok_after it)
                  (HarvestItem.sale_date it)))
      (HarvestPlan.items plan).
Proof.
  eexists. split; [vm_compute; reflexivity|].
  apply (item_dates demo_navigator demo_lots demo_market demo_buys).
  vm_compute. reflexivity.
Defined.

(** C8, counterexample. With the demo lots and prices and an empty list of
    recent buys the plan has three items and a total loss of 1930: the empty
    recent-buys list alone does not empty the plan. *)
Lemma empty_buys_plan_not_empty :
  (∃ plan,
     WashSaleNavigator.build_plan demo_navigator demo_lots demo_market [] = Ok plan
     ∧ length (HarvestPlan.items plan) = 3%nat
     ∧ HarvestPlan.total_harvestable_loss plan = 1930%float)
  ∧ ¬ empty_inputs_claim demo_navigator demo_lots demo_market [].
Proof.
  split.
  - eexists. split; [vm_compute; reflexivity|]. split; vm_compute; reflexivity.
  - intros Hclaim. destruct Hclaim as (plan & Hplan & Hitems & _); [by right|].
    vm_compute in Hplan. injection Hplan as <-. discriminate Hitems.
Qed.

(** C8, amended. With an empty lots list, whatever the recent buys are,
    [build_plan] returns the plan with no items and both totals [0.0]; no
    validation fails. With an empty recent-buys list and any lots the
    validation does not fail either and no item is blocked by a recent buy,
    but the plan has an item for every priced lot that passes the
    thresholds, so it need not be empty. *)
Theorem empty_lots_plan (self : WashSaleNavigator.t) (market : MarketData.t)
    (buys : list RecentBuy.t) :
  WashSaleNavigator.build_plan self [] market buys
  = Ok (HarvestPlan.new (MarketData.asof market) [] 0%float 0%float)
  ∧ WashSaleNavigator.sanity_validation self [] = Ok ()
  ∧ (∀ lots,
       (∀ msg, WashSaleNavigator.build_plan self lots market [] ≠ Raise (ValueError msg))
       ∧ (∀ plan,
            WashSaleNavigator.build_plan self lots market [] = Ok plan →
            Forall (λ it,
                HarvestItem.block_reason it = None
                ∨ HarvestItem.block_reason it
                  = Some "No safe replacement with known price")
              (HarvestPlan.items plan))).
Proof.
  split_and!; [reflexivity..|]. intros lots. split.
  - intros msg. rewrite build_plan_spec. destruct (forallb _ _); [done|].
    unfold construction_error. by destruct (reentry_representable market).
  - intros plan [-> _]%plan_items.
    apply Forall_fmap, Forall_forall. intros [[idx lot] px] _.
    cbv beta delta [compose]. unfold item_of.
    destruct (verdict_correct self market [] lot px) as [pre rb post Hnil| |]; simpl.
    + by destruct pre.
    + by left.
    + by right.
Qed.

(** C9. In every plan that [build_plan] returns, an item is blocked exactly
    when it carries a block reason; a non-blocked item has a replacement
    symbol, replacement shares and a replacement price; a blocked item has
    none of the three. *)
Theorem item_shape (self : WashSaleNavigator.t) (lots : list TaxLot.t)
    (market : MarketData.t) (buys : list RecentBuy.t) (plan : HarvestPlan.t) :
  WashSaleNavigator.build_plan self lots market buys = Ok plan →
  Forall (λ it,
      (HarvestItem.wash_sale_blocked it = true ↔ is_Some (HarvestItem.block_reason it))
      ∧ (HarvestItem.wash_sale_blocked it = false →
         is_Some (HarvestItem.replacement_symbol it)
         ∧ is_Some (HarvestItem.replacement_shares it)
         ∧ is_Some (HarvestItem.replacement_price it))
      ∧ (HarvestItem.wash_sale_blocked it = true →
         HarvestItem.replacement_symbol it = None
         ∧ HarvestItem.replacement_shares it = None
         ∧ HarvestItem.replacement_price it = None))
    (HarvestPlan.items plan).
Proof.
  intros [-> _]%plan_items.
  apply Forall_fmap, Forall_forall. intros [[idx lot] px] _.
  cbv beta delta [compose]. unfold item_of.
  destruct (verdict_correct self market buys lot px); simpl.
  - split_and!; [by split; eauto|done..].
  - split_and!; [split; [done|by intros [? ?]]|by eauto|done].
  - split_and!; [by split; eauto|done..].
Qed.

(** C9 on the demo data. *)
Lemma item_shape_demo :
  ∃ plan,
    WashSaleNavigator.build_plan demo_navigator demo_lots demo_market demo_buys = Ok plan
    ∧ Forall (λ it,
        (HarvestItem.wash_sale_blocked it = true ↔ is_Some (HarvestItem.block_reason it))
        ∧ (HarvestItem.wash_sale_blocked it = false →
           is_Some (HarvestItem.replacement_symbol it)
           ∧ is_Some (HarvestItem.replacement_shares it)
           ∧ is_Some (HarvestItem.replacement_price it))
        ∧ (HarvestItem.wash_sale_blocked it = true →
           HarvestItem.replacement_symbol it = None
           ∧ HarvestItem.replacement_shares it = None
           ∧ HarvestItem.replacement_price it = None))
      (HarvestPlan.items plan).
Proof.
  eexists. split; [vm_compute; reflexivity|].
  apply (item_shape demo_navigator demo_lots demo_market demo_buys).
  vm_compute. reflexivity.
Defined.

(** C10. Every item of a returned plan sells a whole lot: it names a lot of
    the input by its position, carries that lot's symbol and market price,
    and its [shares_to_sell] is the lot's share count rounded to 6 places;
    the replacement quantity of a non-blocked item is sized from the
    proceeds of the whole lot, [shares * price], and the same proceeds enter
    the cash-delta accumulation. *)
Theorem whole_lot_sales (self : WashSaleNavigator.t) (lots : list TaxLot.t)
    (market : MarketData.t) (buys : list RecentBuy.t) (plan : HarvestPlan.t) :
  WashSaleNavigator.build_plan self lots market buys = Ok plan →
  Forall (λ it,
      ∃ lot,
        lots !! HarvestItem.lot_index it = Some lot
        ∧ HarvestItem.symbol it = TaxLot.symbol lot
        ∧ MarketData.price market (TaxLot.symbol lot) = Some (HarvestItem.sale_price it)
        ∧ HarvestItem.shares_to_sell it = Py.round (TaxLot.shares lot) 6
        ∧ (HarvestItem.wash_sale_blocked it = false →
           ∃ rp,
             HarvestItem.replacement_price it = Some rp
             ∧ HarvestItem.replacement_shares it
               = Some (Py.round (TaxLot.shares lot * HarvestItem.sale_price it / rp)%float 6)))
    (HarvestPlan.items plan)
  ∧ HarvestPlan.simulated_cash_delta plan
    = Py.round (fsum (cash_term lots <$> filter unblocked (HarvestPlan.items plan))) 2.
Proof.
  intros Hplan. split; [|by eapply plan_totals].
  apply plan_items in Hplan as [-> _].
  apply Forall_fmap, Forall_forall.
  intros [[idx lot] px] (_ & Hl & [Hpx _]%evaluable_Some)%entries_elem.
  rewrite Nat.sub_0_r in Hl. cbv beta delta [compose].
  destruct (item_of_fixed self market buys idx lot px) as (-> & -> & -> & -> & _).
  exists lot. split_and!; [done..|].
  unfold item_of. destruct (verdict_correct self market buys lot px); simpl; [done| |done].
  intros _. by eexists.
Qed.

(** C10 on the demo data. *)
Lemma whole_lot_sales_demo :
  ∃ plan,
    WashSaleNavigator.build_plan demo_navigator demo_lots demo_market demo_buys = Ok plan
    ∧ Forall (λ it,
        ∃ lot,
          demo_lots !! HarvestItem.lot_index it = Some lot
          ∧ HarvestItem.symbol it = TaxLot.symbol lot
          ∧ MarketData.price demo_market (TaxLot.symbol lot)
            = Some (HarvestItem.sale_price it)
          ∧ HarvestItem.shares_to_sell it = Py.round (TaxLot.shares lot) 6
          ∧ (HarvestItem.wash_sale_blocked it = false →
             ∃ rp,
               HarvestItem.replacement_price it = Some rp
               ∧ HarvestItem.replacement_shares it
                 = Some (Py.round
                           (TaxLot.shares lot * HarvestItem.sale_price it / rp)%float 6)))
      (HarvestPlan.items plan)
    ∧ HarvestPlan.simulated_cash_delta plan
      = Py.round (fsum (cash_term demo_lots
                          <$> filter unblocked (HarvestPlan.items plan))) 2.
Proof.
  eexists. split; [vm_compute; reflexivity|].
  apply (whole_lot_sales demo_navigator demo_lots demo_market demo_buys).
  vm_compute. reflexivity.
Defined.

(** * Further properties of the code *)

(** ** The replacement policy *)

Section PolicyMore.
Import ReplacementPolicy.
Context (p : ReplacementPolicy.t).

Lemma cluster_scan_first clusters symbol pre c post :
  clusters = pre ++ c :: post →
  Forall (λ c', symbol ∉ c') pre → symbol ∈ c →
  cluster_scan clusters symbol = Some c.
Proof.
  intros -> Hpre Hc. induction Hpre as [|c' pre Hc' _ IH]; simpl.
  - by rewrite bool_decide_true.
  - by rewrite bool_decide_false.
Qed.

Lemma cluster_for_eq a b :
  disjoint_clusters p → a ∈ cluster_for p b → cluster_for p a = cluster_for p b.
Proof.
  intros Hdisj. unfold cluster_for.
  destruct (cluster_scan (prohibited_equivalents p) b) as [c|] eqn:Eb.
  - intros Ha%elem_of_list_to_set.
    apply cluster_scan_Some in Eb as (pre & post & Hc & Hb & _).
    destruct (cluster_scan (prohibited_equivalents p) a) as [c'|] eqn:Ea.
    + apply cluster_scan_Some in Ea as (pre' & post' & Hc' & Ha' & _).
      assert (prohibited_equivalents p !! length pre = Some c) as H1
        by (rewrite Hc; by apply list_lookup_middle).
      assert (prohibited_equivalents p !! length pre' = Some c') as H2
        by (rewrite Hc'; by apply list_lookup_middle).
      assert (length pre = length pre') as Hlen
        by (by apply (Hdisj _ _ c c' a)).
      rewrite <- Hlen in H2. congruence.
    + apply cluster_scan_None in Ea. rewrite Hc in Ea.
      by apply Forall_app in Ea as [_ [? _]%Forall_cons_1].
  - intros ->%elem_of_singleton. by rewrite Eb.
Qed.

Lemma dict_get_Some {V} (d : list (string * V)) k v :
  dict_get d k = Some v → (k, v) ∈ d.
Proof.
  induction d as [|[k' v'] d IH]; simpl; [done|].
  case_bool_decide as Hk.
  - intros [= <-]. subst. apply elem_of_cons. by left.
  - intros ?%IH. apply elem_of_cons. by right.
Qed.

(** The list that [safe_alternatives] filters: every member is declared in
    an entry whose key has the symbol in its cluster. *)
Lemma safe_alternatives_source symbol a :
  a ∈ safe_alternatives p symbol →
  (a ∉ cluster_for p symbol)
  ∧ (∃ s lst, (s, lst) ∈ recommended_alternatives p ∧ a ∈ lst
              ∧ symbol ∈ cluster_for p s).
Proof.
  unfold safe_alternatives.
  intros [Hout Ha]%list_elem_of_filter. split; [done|].
  assert (a ∈ alias_scan p symbol (recommended_alternatives p) [] →
          ∃ s lst, (s, lst) ∈ recommended_alternatives p ∧ a ∈ lst
                   ∧ symbol ∈ cluster_for p s) as Hscan.
  { destruct (alias_scan_cases p symbol (recommended_alternatives p) [])
      as [(pre & s & lst & post & Ht & _ & Hs & ->)|[_ ->]];
      [|by intros ?%elem_of_nil].
    intros Hin. exists s, lst. split_and!; [|done..].
    rewrite Ht. apply elem_of_app. right. apply elem_of_cons. by left. }
  destruct (dict_get (recommended_alternatives p) symbol) as [direct|] eqn:Hd;
    cbn [default] in Ha.
  - case_bool_decide as Hnil; simpl in Hnil.
    + subst direct. by apply Hscan.
    + exists symbol, direct. split_and!; [by apply dict_get_Some|done|].
      apply cluster_for_self.
  - case_bool_decide; [by apply Hscan|done].
Qed.

(** Cluster mates answer the scan of the alternatives table alike. *)
Lemma alias_scan_mates a b items alts :
  disjoint_clusters p → a ∈ cluster_for p b →
  alias_scan p a items alts = alias_scan p b items alts.
Proof.
  intros Hdisj Hab. induction items as [|[s lst] rest IH]; simpl; [done|].
  assert (a ∈ cluster_for p s ↔ b ∈ cluster_for p s) as Hiff.
  { split; intros H.
    - apply cluster_for_sym in H; [|done].
      rewrite (cluster_for_eq _ _ Hdisj Hab) in H. by apply cluster_for_sym.
    - apply cluster_for_sym in H; [|done].
      rewrite <- (cluster_for_eq _ _ Hdisj Hab) in H. by apply cluster_for_sym. }
  destruct (decide (a ∈ cluster_for p s)) as [Ha|Ha].
  - rewrite !bool_decide_true by tauto. done.
  - rewrite !bool_decide_false by tauto. done.
Qed.

End PolicyMore.

(** X1. [cluster_for symbol] always contains [symbol]: it is the set of the
    first declared cluster that contains the symbol, and the singleton of
    the symbol when no declared cluster does. *)
Theorem cluster_for_first_match (p : ReplacementPolicy.t) (symbol : string) :
  symbol ∈ ReplacementPolicy.cluster_for p symbol
  ∧ (Forall (λ c, symbol ∉ c) (ReplacementPolicy.prohibited_equivalents p) →
     ReplacementPolicy.cluster_for p symbol = {[ symbol ]})
  ∧ (∀ pre c post,
       ReplacementPolicy.prohibited_equivalents p = pre ++ c :: post →
       Forall (λ c', symbol ∉ c') pre → symbol ∈ c →
       ReplacementPolicy.cluster_for p symbol = list_to_set c).
Proof.
  split_and!.
  - apply cluster_for_self.
  - intros Hnone. unfold ReplacementPolicy.cluster_for.
    destruct (ReplacementPolicy.cluster_scan _ _) as [c|] eqn:E; [|done].
    apply cluster_scan_Some in E as (pre & post & Hc & Hin & _).
    rewrite Hc in Hnone. by apply Forall_app in Hnone as [_ [? _]%Forall_cons_1].
  - intros pre c post Hc Hpre Hin. unfold ReplacementPolicy.cluster_for.
    by rewrite (cluster_scan_first _ _ _ _ _ Hc Hpre Hin).
Qed.




(** X4. With disjoint clusters, two symbols of one cluster that have no
    list of their own (or an empty one) get the same safe alternatives. *)
Theorem cluster_mates_share_alternatives (p : ReplacementPolicy.t) (a b : string) :
  disjoint_clusters p →
  a ∈ ReplacementPolicy.cluster_for p b →
  default [] (ReplacementPolicy.dict_get (ReplacementPolicy.recommended_alternatives p) a)
    = [] →
  default [] (ReplacementPolicy.dict_get (ReplacementPolicy.recommended_alternatives p) b)
    = [] →
  ReplacementPolicy.safe_alternatives p a = ReplacementPolicy.safe_alternatives p b.
Proof.
  intros Hdisj Hab Ha Hb. unfold ReplacementPolicy.safe_alternatives.
  rewrite Ha, Hb. rewrite !bool_decide_true by done.
  rewrite (cluster_for_eq p a b Hdisj Hab).
  by rewrite (alias_scan_mates p a b _ _ Hdisj Hab).
Qed.

(** X4 on a policy whose one cluster has a list for SPY only: IVV and VOO
    inherit the same alternatives. *)
Lemma cluster_mates_share_alternatives_example :
  ReplacementPolicy.safe_alternatives
    (ReplacementPolicy.mk [["SPY"; "IVV"; "VOO"]] [("SPY", ["VTI"; "IVV"])]) "IVV"
  = ReplacementPolicy.safe_alternatives
      (ReplacementPolicy.mk [["SPY"; "IVV"; "VOO"]] [("SPY", ["VTI"; "IVV"])]) "VOO".
Proof.
  apply cluster_mates_share_alternatives.
  - intros i j c1 c2 x Hi Hj _ _.
    destruct i as [|i]; [|done]. by destruct j as [|j].
  - vm_compute. reflexivity.
  - reflexivity.
  - reflexivity.
Defined.

(** ** The wash-sale test and the replacement search *)

Section ScansMore.
Import WashSaleNavigator.

Lemma window_scan_flag p symbol sale_date buys :
  (window_scan (ReplacementPolicy.cluster_for p symbol) sale_date buys).1 = true
  ↔ Exists (in_window p symbol sale_date) buys.
Proof.
  destruct (window_scan_cases p symbol sale_date buys)
    as [(pre & rb & post & -> & _ & Hrb & ->)|[Hnone ->]]; simpl.
  - split; [|done]. intros _. apply Exists_app. right. by apply Exists_cons_hd.
  - split; [done|]. intros Hex. apply Exists_exists in Hex as (rb & Hin & Hrb).
    rewrite Forall_forall in Hnone. by destruct (Hnone rb Hin).
Qed.

Lemma window_scan_flag_eq p symbol sale_date buys buys' :
  (Exists (in_window p symbol sale_date) buys
   ↔ Exists (in_window p symbol sale_date) buys') →
  (window_scan (ReplacementPolicy.cluster_for p symbol) sale_date buys).1
  = (window_scan (ReplacementPolicy.cluster_for p symbol) sale_date buys').1.
Proof.
  intros Hiff. rewrite <- !window_scan_flag in Hiff.
  destruct (window_scan _ _ buys).1, (window_scan _ _ buys').1; try done.
  - by destruct (proj1 Hiff eq_refl).
  - by destruct (proj2 Hiff eq_refl).
Qed.

End ScansMore.

(** X5. The verdict of [_is_blocked] depends on the recent buys as a set:
    for a concatenation it is the disjunction of the verdicts of the two
    parts, and it is the same for every reordering of the list (only the
    reported reason depends on the order). The reason is empty exactly when
    the verdict is negative. *)
Theorem is_blocked_any_buy (self : WashSaleNavigator.t) (symbol : string)
    (sale_date : Py.date) :
  (∀ buys1 buys2,
     (WashSaleNavigator._is_blocked self symbol sale_date (buys1 ++ buys2)).1
     = (WashSaleNavigator._is_blocked self symbol sale_date buys1).1
       || (WashSaleNavigator._is_blocked self symbol sale_date buys2).1)
  ∧ (∀ buys buys',
       buys ≡ₚ buys' →
       (WashSaleNavigator._is_blocked self symbol sale_date buys).1
       = (WashSaleNavigator._is_blocked self symbol sale_date buys').1)
  ∧ (∀ buys,
       (WashSaleNavigator._is_blocked self symbol sale_date buys).1 = false
       ↔ (WashSaleNavigator._is_blocked self symbol sale_date buys).2 = "").
Proof.
  unfold WashSaleNavigator._is_blocked. split_and!.
  - intros buys1 buys2.
    apply eq_true_iff_eq. rewrite orb_true_iff, !window_scan_flag.
    apply Exists_app.
  - intros buys buys' Hperm. apply window_scan_flag_eq. by rewrite Hperm.
  - intros buys.
    destruct (window_scan_cases (WashSaleNavigator.policy self) symbol sale_date buys)
      as [(pre & rb & post & _ & _ & _ & ->)|[_ ->]]; simpl; by split.
Qed.

(** X6. With disjoint clusters, [_is_blocked] gives the same answer, reason
    included, for all the symbols of one cluster. *)
Theorem is_blocked_cluster_mates (self : WashSaleNavigator.t) (a b : string)
    (sale_date : Py.date) (buys : list RecentBuy.t) :
  disjoint_clusters (WashSaleNavigator.policy self) →
  a ∈ ReplacementPolicy.cluster_for (WashSaleNavigator.policy self) b →
  WashSaleNavigator._is_blocked self a sale_date buys
  = WashSaleNavigator._is_blocked self b sale_date buys.
Proof.
  intros Hdisj Hab. unfold WashSaleNavigator._is_blocked.
  by rewrite (cluster_for_eq _ a b Hdisj Hab).
Qed.

(** X6 on the demo data: a sale of IVV is blocked by the same buy as a sale
    of SPY. *)
Lemma is_blocked_cluster_mates_demo :
  WashSaleNavigator._is_blocked demo_navigator "IVV" demo_today demo_buys
  = WashSaleNavigator._is_blocked demo_navigator "SPY" demo_today demo_buys.
Proof.
  apply is_blocked_cluster_mates.
  - apply demo_policy_disjoint.
  - vm_compute. reflexivity.
Defined.

(** X7. [_pick_replacement] returns either three [None]s, exactly when no
    safe alternative has a known price above 0.01, or a symbol with its
    market price and the quantity [proceeds / price]; the symbol is a safe
    alternative, so it is neither the sold symbol nor in its cluster, and
    the price is above 0.01. *)
Theorem pick_replacement_result (self : WashSaleNavigator.t) (symbol : string)
    (proceeds : float) (market : MarketData.t) :
  let alts :=
    ReplacementPolicy.safe_alternatives (WashSaleNavigator.policy self) symbol in
  (WashSaleNavigator._pick_replacement self symbol proceeds market = (None, None, None)
   ∧ Forall (λ a, usable_price market a = None) alts)
  ∨ (∃ alt px,
       WashSaleNavigator._pick_replacement self symbol proceeds market
       = (Some alt, Some (proceeds / px)%float, Some px)
       ∧ alt ∈ alts
       ∧ alt ≠ symbol
       ∧ (alt ∉ ReplacementPolicy.cluster_for (WashSaleNavigator.policy self) symbol)
       ∧ MarketData.price market alt = Some px
       ∧ (0.01 <? px)%float = true).
Proof.
  intros alts. unfold WashSaleNavigator._pick_replacement. fold alts.
  destruct (pick_scan_cases market alts proceeds)
    as [(pre & alt & post & rp & Halts & _ & Halt & ->)|[Hall ->]]; [right|by left].
  assert (alt ∈ alts) as Hin.
  { rewrite Halts. apply elem_of_app. right. apply elem_of_cons. by left. }
  destruct (safe_alternatives_source _ _ _ Hin) as [Hout _].
  exists alt, rp. unfold usable_price in Halt.
  destruct (MarketData.price market alt) as [px|]; [|done].
  destruct (0.01 <? px)%float eqn:Hpx; [|done]. injection Halt as ->.
  split_and!; try done.
  intros ->. apply Hout, cluster_for_self.
Qed.

(** ** Floats that are not negative *)

Section FloatMore.
Local Open Scope float_scope.

Lemma SF2Prim_signed (y : spec_float) :
  signed false y → signed false (Prim2SF (SF2Prim y)).
Proof.
  destruct y as [s|s| |s m e]; simpl; try (intros ->; done); try done.
  intros ->. rewrite Z_ldexp_spec, of_uint63_spec.
  pose proof (Uint63.to_Z_bounded (Uint63.of_pos m)) as [Hpos _].
  destruct (Uint63.to_Z (Uint63.of_pos m)) as [|n|n]; simpl; try lia; try done.
  destruct (binary_round prec emax false n 0) as [s|s| |s m' e'] eqn:E; simpl;
    pose proof (proj1 (binary_round_signed false n 0)) as Hs; rewrite E in Hs;
    simpl in Hs; try done.
  subst s. apply binary_round_signed.
Qed.

Lemma SFdiv_signed (x y : spec_float) :
  signed false x → signed false y → signed false (SFdiv prec emax x y).
Proof.
  destruct x as [sx|sx| |sx mx ex], y as [sy|sy| |sy my ey]; simpl; try done;
    try (by intros -> ->).
  intros -> ->. unfold SFdiv.
  destruct (SFdiv_core_binary _ _ _ _ _ _) as [[mz ez] lz].
  apply binary_round_aux_signed.
Qed.

(** Rounding to decimal places does not make a number negative. *)
Lemma round_not_negative (x : float) (ndigits : Z) :
  (x <? 0) = false → (Py.round x ndigits <? 0) = false.
Proof.
  intros Hx. unfold Py.round.
  destruct (Prim2SF x) as [s|s| |s m e] eqn:E; try done.
  destruct (0 <=? e)%Z; [done|].
  assert (s = false) as ->.
  { rewrite FloatAxioms.ltb_spec, E in Hx. by destruct s. }
  rewrite FloatAxioms.ltb_spec.
  change (Prim2SF 0) with (S754_zero false).
  apply signed_false_swap, SF2Prim_signed, SFdiv_signed; [|done].
  by destruct (Py.div_half_even _ _).
Qed.

(** A number that is not below a non-negative bound is not negative. *)
Lemma not_below_not_negative (x bound : float) :
  (x <? bound) = false → (0 <=? bound) = true → (x <? 0) = false.
Proof.
  rewrite !FloatAxioms.ltb_spec, FloatAxioms.leb_spec.
  change (Prim2SF 0) with (S754_zero false).
  destruct (Prim2SF x) as [sx|sx| |sx mx ex], (Prim2SF bound) as [sb|sb| |sb mb eb];
    try done; try (by destruct sx); try (by destruct sb); try (by destruct sx, sb).
Qed.

End FloatMore.

(** ** The planning loop, continued *)

Section EngineMore.
Import WashSaleNavigator.
Context (self : WashSaleNavigator.t) (market : MarketData.t).

Lemma entries_sorted lots : ∀ idx,
  StronglySorted Nat.lt ((λ e, e.1.1) <$> entries self market idx lots)
  ∧ (length (entries self market idx lots) ≤ length lots)%nat.
Proof.
  induction lots as [|lot rest IH]; intros idx; cbn [entries].
  - split; [constructor|done].
  - destruct (IH (S idx)) as [Hs Hl].
    destruct (evaluable self market lot) as [px|]; simpl; [|split; [done|lia]].
    split; [|lia]. constructor; [done|].
    apply Forall_fmap, Forall_forall. intros [[i l] p] Hin.
    apply entries_elem in Hin as [Hle _]. simpl. lia.
Qed.

Lemma item_index_map buys (es : list (nat * TaxLot.t * float)) :
  HarvestItem.lot_index <$> (item_of self market buys <$> es) = (λ e, e.1.1) <$> es.
Proof.
  rewrite <- list_fmap_compose. apply list_fmap_ext. intros _ [[i lot] px] _. simpl.
  by destruct (item_of_fixed self market buys i lot px) as (_ & ? & _).
Qed.

(** With a non-negative dollar threshold no entry is refused for its loss. *)
Lemma entries_loss_accepted lots idx :
  (0 <=? min_loss_dollars self)%float = true →
  Forall (λ e, loss_accepted e = true) (entries self market idx lots).
Proof.
  intros Hmin. apply Forall_forall. intros [[i lot] px] Hin.
  apply entries_elem in Hin as (_ & _ & (_ & Hd & _)%evaluable_Some).
  unfold loss_accepted. simpl. apply negb_true_iff.
  apply round_not_negative. by eapply not_below_not_negative.
Qed.

End EngineMore.

(** X8. The items of a returned plan follow the order of the lots: their
    lot numbers increase strictly along the list, so no lot has two items,
    and there are at most as many items as lots. *)
Theorem items_in_lot_order (self : WashSaleNavigator.t) (lots : list TaxLot.t)
    (market : MarketData.t) (buys : list RecentBuy.t) (plan : HarvestPlan.t) :
  WashSaleNavigator.build_plan self lots market buys = Ok plan →
  StronglySorted Nat.lt (HarvestItem.lot_index <$> HarvestPlan.items plan)
  ∧ (length (HarvestPlan.items plan) ≤ length lots)%nat.
Proof.
  intros [-> _]%plan_items.
  destruct (entries_sorted self market lots 0) as [Hs Hl].
  rewrite item_index_map, length_fmap. done.
Qed.

(** X8 on the demo data. *)
Lemma items_in_lot_order_demo :
  ∃ plan,
    WashSaleNavigator.build_plan demo_navigator demo_lots demo_market demo_buys = Ok plan
    ∧ StronglySorted Nat.lt (HarvestItem.lot_index <$> HarvestPlan.items plan)
    ∧ (length (HarvestPlan.items plan) ≤ length demo_lots)%nat.
Proof.
  eexists. split; [vm_compute; reflexivity|].
  apply (items_in_lot_order demo_navigator demo_lots demo_market demo_buys).
  vm_compute. reflexivity.
Defined.

(** X9. No item of a returned plan has a negative [loss_dollars]: the
    validator of [HarvestItem] has refused it. The loss is at least 0
    unless it is NaN, which the validator lets through. *)
Theorem items_loss_not_negative (self : WashSaleNavigator.t) (lots : list TaxLot.t)
    (market : MarketData.t) (buys : list RecentBuy.t) (plan : HarvestPlan.t) :
  WashSaleNavigator.build_plan self lots market buys = Ok plan →
  Forall (λ it,
      (HarvestItem.loss_dollars it <? 0)%float = false
      ∧ (is_nan (HarvestItem.loss_dollars it) = false →
         (0 <=? HarvestItem.loss_dollars it)%float = true))
    (HarvestPlan.items plan).
Proof.
  intros [-> Hall]%plan_items. rewrite forallb_forall in Hall.
  apply Forall_fmap, Forall_forall. intros [[i lot] px] Hin.
  apply list_elem_of_In, Hall in Hin. apply andb_prop in Hin as [_ Hloss].
  cbv beta delta [compose].
  destruct (item_of_fixed self market buys i lot px) as (_ & _ & _ & _ & -> & _).
  unfold loss_accepted in Hloss. simpl in Hloss. apply negb_true_iff in Hloss.
  split; [done|]. intros Hnan. by apply ltb_false_leb.
Qed.

(** X9 on the demo data. *)
Lemma items_loss_not_negative_demo :
  ∃ plan,
    WashSaleNavigator.build_plan demo_navigator demo_lots demo_market demo_buys = Ok plan
    ∧ Forall (λ it, (HarvestItem.loss_dollars it <? 0)%float = false)
        (HarvestPlan.items plan).
Proof.
  eexists. split; [vm_compute; reflexivity|].
  eapply Forall_impl.
  - apply (items_loss_not_negative demo_navigator demo_lots demo_market demo_buys).
    vm_compute. reflexivity.
  - intros it [H _]. exact H.
Defined.

(** X10. With a dollar threshold that is at least 0 (the default is 200)
    and an as-of date whose 31st day after is a date (any as-of date up to
    9999-11-30), [build_plan] returns a plan: it raises nothing, whatever
    the lots, prices, recent buys and policy are. *)
Theorem build_plan_returns (self : WashSaleNavigator.t) (lots : list TaxLot.t)
    (market : MarketData.t) (buys : list RecentBuy.t) :
  (0 <=? WashSaleNavigator.min_loss_dollars self)%float = true →
  1 ≤ MarketData.asof market + 31 ≤ Py.MAXORDINAL →
  ∃ plan, WashSaleNavigator.build_plan self lots market buys = Ok plan.
Proof.
  intros Hmin [Hlo Hhi]. rewrite build_plan_spec.
  replace (forallb _ _) with true; [by eexists|]. symmetry.
  apply forallb_forall. intros e Hin.
  pose proof (entries_loss_accepted self market lots 0 Hmin) as Hacc.
  rewrite Forall_forall in Hacc. apply list_elem_of_In, Hacc in Hin.
  unfold constructible, reentry_representable. rewrite Hin, andb_true_r.
  apply andb_true_intro. split; by apply Z.leb_le.
Qed.

(** X10 on the demo data. *)
Lemma build_plan_returns_demo :
  ∃ plan,
    WashSaleNavigator.build_plan demo_navigator demo_lots demo_market demo_buys = Ok plan.
Proof.
  apply build_plan_returns.
  - vm_compute. reflexivity.
  - vm_compute. split; discriminate.
Defined.

(** ** What the plan does not depend on *)

Section Frame.
Import WashSaleNavigator.

Lemma window_scan_same_buys cluster sale_date buys buys' :
  Forall2 same_buy buys buys' →
  window_scan cluster sale_date buys = window_scan cluster sale_date buys'.
Proof.
  induction 1 as [|rb rb' buys buys' [Hd Hs] _ IH]; [done|].
  cbn [window_scan]. unfold window_reason. by rewrite Hd, Hs, IH.
Qed.

Lemma lot_step_frame self market buys buys' today idx lot lot' st :
  same_position lot lot' → Forall2 same_buy buys buys' →
  lot_step self market buys today idx lot st
  = lot_step self market buys' today idx lot' st.
Proof.
  destruct lot as [s sh bd c], lot' as [s' sh' bd' c'].
  intros (Hs & Hsh & Hc) Hb. simpl in Hs, Hsh, Hc. subst s' sh' c'.
  unfold lot_step, _is_blocked, loss_total, loss_pct. simpl.
  by rewrite (window_scan_same_buys _ _ _ _ Hb).
Qed.

Lemma plan_loop_frame self market buys buys' today lots lots' :
  Forall2 same_position lots lots' → Forall2 same_buy buys buys' →
  ∀ idx st,
    plan_loop self market buys today idx lots st
    = plan_loop self market buys' today idx lots' st.
Proof.
  intros Hl Hb. induction Hl as [|lot lot' lots lots' Hlot _ IH]; intros idx st; [done|].
  cbn [plan_loop]. rewrite (lot_step_frame _ _ _ _ _ _ _ _ _ Hlot Hb).
  destruct (lot_step _ _ _ _ _ _ _); simpl; [apply IH|done].
Qed.

Lemma window_scan_clear cluster sale_date buys :
  (window_scan cluster sale_date buys).1 = false →
  window_scan cluster sale_date buys = (false, "").
Proof.
  induction buys as [|rb buys IH]; [done|]. cbn [window_scan].
  by destruct (_ && _).
Qed.

Lemma foldl_ext_all {A B} (f g : A → B → A) (l : list B) :
  (∀ a x, f a x = g a x) → ∀ a, foldl f a l = foldl g a l.
Proof.
  intros Hfg. induction l as [|x l IH]; intros a; [done|].
  cbn [foldl]. by rewrite Hfg, IH.
Qed.

Context (self : WashSaleNavigator.t) (market : MarketData.t).

(** Two lists of recent buys with the same members give every lot the
    same item but for the text of the block reason. *)
Lemma item_of_same_members buys buys' e :
  (∀ rb, rb ∈ buys ↔ rb ∈ buys') →
  item_of self market buys' e
  = with_block_reason (HarvestItem.block_reason (item_of self market buys' e))
      (item_of self market buys e)
  ∧ (is_Some (HarvestItem.block_reason (item_of self market buys e))
     ↔ is_Some (HarvestItem.block_reason (item_of self market buys' e)))
  ∧ cash_of self market buys' e = cash_of self market buys e.
Proof.
  intros Hmem. destruct e as [[i lot] px].
  assert ((window_scan (ReplacementPolicy.cluster_for (policy self) (TaxLot.symbol lot))
             (MarketData.asof market) buys).1
          = (window_scan (ReplacementPolicy.cluster_for (policy self) (TaxLot.symbol lot))
               (MarketData.asof market) buys').1) as Hflag.
  { apply window_scan_flag_eq. rewrite !Exists_exists.
    split; intros (rb & Hin & Hrb); exists rb; (split; [by apply Hmem|done]). }
  pose proof (window_scan_clear
                (ReplacementPolicy.cluster_for (policy self) (TaxLot.symbol lot))
                (MarketData.asof market) buys) as Hc.
  pose proof (window_scan_clear
                (ReplacementPolicy.cluster_for (policy self) (TaxLot.symbol lot))
                (MarketData.asof market) buys') as Hc'.
  unfold item_of, cash_of, verdict, _is_blocked.
  destruct (window_scan _ _ buys) as [b r], (window_scan _ _ buys') as [b' r'].
  simpl in Hflag, Hc, Hc'. subst b'. destruct b; simpl.
  - unfold with_block_reason. simpl. by split_and!.
  - specialize (Hc eq_refl). specialize (Hc' eq_refl).
    injection Hc as ->. injection Hc' as ->.
    destruct (_pick_replacement _ _ _ _) as [[[alt|] q] rp]; by split_and!.
Qed.

(** Without a table of alternatives no lot finds a replacement. *)
Lemma item_of_no_alternatives buys e :
  ReplacementPolicy.recommended_alternatives (policy self) = [] →
  HarvestItem.wash_sale_blocked (item_of self market buys e) = true
  ∧ HarvestItem.replacement_symbol (item_of self market buys e) = None.
Proof.
  intros Hnone. destruct e as [[i lot] px]. unfold item_of.
  destruct (verdict_correct self market buys lot px)
    as [pre rb post _ _ _ _|pre alt post rp _ _ Halts _ _ _|_ _ _ _]; try done.
  unfold ReplacementPolicy.safe_alternatives in Halts. rewrite Hnone in Halts.
  simpl in Halts. by destruct pre.
Qed.

End Frame.

(** X11. The acquisition date of a lot and the share count of a recent
    buy play no part in the plan: changing them changes nothing in what
    [build_plan] returns or raises. *)
Theorem build_plan_ignores_buy_date_and_bought_shares
    (self : WashSaleNavigator.t) (market : MarketData.t)
    (lots lots' : list TaxLot.t) (buys buys' : list RecentBuy.t) :
  Forall2 same_position lots lots' →
  Forall2 same_buy buys buys' →
  WashSaleNavigator.build_plan self lots market buys
  = WashSaleNavigator.build_plan self lots' market buys'.
Proof.
  intros Hl Hb. unfold WashSaleNavigator.build_plan.
  by rewrite (plan_loop_frame self market buys buys' _ lots lots' Hl Hb).
Qed.

(** X11 on the demo data: every lot bought on 0001-01-01, every recent buy
    of a million shares. *)
Lemma build_plan_ignores_buy_date_and_bought_shares_demo :
  WashSaleNavigator.build_plan demo_navigator demo_lots demo_market demo_buys
  = WashSaleNavigator.build_plan demo_navigator
      ((λ lot, TaxLot.mk (TaxLot.symbol lot) (TaxLot.shares lot) 1
                 (TaxLot.cost_basis_per_share lot)) <$> demo_lots)
      demo_market
      ((λ rb, RecentBuy.mk (RecentBuy.date rb) (RecentBuy.symbol rb) 1000000%float)
         <$> demo_buys).
Proof.
  apply build_plan_ignores_buy_date_and_bought_shares.
  - vm_compute. repeat constructor.
  - vm_compute. repeat constructor.
Defined.

(** X12. When every item of a returned plan is blocked, both totals of the
    plan are 0.0; and a policy whose table of recommended alternatives is
    empty blocks every item, with no replacement. *)
Theorem all_blocked_plan (self : WashSaleNavigator.t) (lots : list TaxLot.t)
    (market : MarketData.t) (buys : list RecentBuy.t) (plan : HarvestPlan.t) :
  WashSaleNavigator.build_plan self lots market buys = Ok plan →
  (Forall (λ it, HarvestItem.wash_sale_blocked it = true) (HarvestPlan.items plan) →
   HarvestPlan.total_harvestable_loss plan = 0%float
   ∧ HarvestPlan.simulated_cash_delta plan = 0%float)
  ∧ (ReplacementPolicy.recommended_alternatives (WashSaleNavigator.policy self) = [] →
     Forall (λ it, HarvestItem.wash_sale_blocked it = true
                   ∧ HarvestItem.replacement_symbol it = None)
       (HarvestPlan.items plan)).
Proof.
  intros Hplan. split.
  - intros Hall. destruct (plan_totals self market buys lots plan Hplan) as [-> ->].
    rewrite filter_none; [done|].
    eapply Forall_impl; [exact Hall|]. intros it Hb. unfold unblocked. by rewrite Hb.
  - intros Hnone. apply plan_items in Hplan as [-> _].
    apply Forall_fmap, Forall_forall. intros e _.
    by apply item_of_no_alternatives.
Qed.

(** X12 on the demo data, with the table of alternatives taken out of the
    demo policy. *)
Lemma all_blocked_plan_demo :
  let nav := WashSaleNavigator.mk
               (ReplacementPolicy.mk
                  (ReplacementPolicy.prohibited_equivalents demo_policy) [])
               200 0.05 in
  ∃ plan,
    WashSaleNavigator.build_plan nav demo_lots demo_market demo_buys = Ok plan
    ∧ HarvestPlan.items plan ≠ []
    ∧ Forall (λ it, HarvestItem.wash_sale_blocked it = true
                    ∧ HarvestItem.replacement_symbol it = None)
        (HarvestPlan.items plan).
Proof.
  intros nav. eexists. split; [vm_compute; reflexivity|]. split; [done|].
  refine (proj2 (all_blocked_plan nav demo_lots demo_market demo_buys _ _) _).
  - vm_compute. reflexivity.
  - reflexivity.
Defined.

(** X13. Only the members of the list of recent buys matter, not their
    order or their multiplicity: with the same members [build_plan]
    returns a plan in the same cases, with the same totals and the same
    items, but for the text of the block reason of the blocked items. *)
Theorem recent_buys_as_a_set (self : WashSaleNavigator.t) (lots : list TaxLot.t)
    (market : MarketData.t) (buys buys' : list RecentBuy.t) (plan : HarvestPlan.t) :
  (∀ rb, rb ∈ buys ↔ rb ∈ buys') →
  WashSaleNavigator.build_plan self lots market buys = Ok plan →
  ∃ plan',
    WashSaleNavigator.build_plan self lots market buys' = Ok plan'
    ∧ HarvestPlan.asof plan' = HarvestPlan.asof plan
    ∧ HarvestPlan.total_harvestable_loss plan' = HarvestPlan.total_harvestable_loss plan
    ∧ HarvestPlan.simulated_cash_delta plan' = HarvestPlan.simulated_cash_delta plan
    ∧ Forall2 (λ it it',
          it' = with_block_reason (HarvestItem.block_reason it') it
          ∧ (is_Some (HarvestItem.block_reason it)
             ↔ is_Some (HarvestItem.block_reason it')))
        (HarvestPlan.items plan) (HarvestPlan.items plan').
Proof.
  intros Hmem. rewrite !build_plan_spec.
  destruct (forallb _ _); [|done]. intros [= <-]. eexists. split; [done|]. simpl.
  assert (∀ e, HarvestItem.wash_sale_blocked (item_of self market buys' e)
               = HarvestItem.wash_sale_blocked (item_of self market buys e)
               ∧ HarvestItem.loss_dollars (item_of self market buys' e)
                 = HarvestItem.loss_dollars (item_of self market buys e)) as Hsame.
  { intros e. destruct (item_of_same_members self market buys buys' e Hmem) as (-> & _ & _).
    done. }
  split_and!.
  - done.
  - f_equal. apply foldl_ext_all. intros a e. unfold add_unblocked.
    by destruct (Hsame e) as [-> ->].
  - f_equal. apply foldl_ext_all. intros a e. unfold add_unblocked.
    destruct (Hsame e) as [-> _].
    by destruct (item_of_same_members self market buys buys' e Hmem) as (_ & _ & ->).
  - apply Forall2_fmap, Forall_Forall2_diag, Forall_forall. intros e _.
    by destruct (item_of_same_members self market buys buys' e Hmem) as (? & ? & _).
Qed.

(** X13 on the demo data, with the recent buys reversed and one of them
    repeated. *)
Lemma recent_buys_as_a_set_demo :
  ∃ plan plan',
    WashSaleNavigator.build_plan demo_navigator demo_lots demo_market demo_buys = Ok plan
    ∧ WashSaleNavigator.build_plan demo_navigator demo_lots demo_market
        (reverse demo_buys ++ demo_buys) = Ok plan'
    ∧ HarvestPlan.total_harvestable_loss plan' = HarvestPlan.total_harvestable_loss plan
    ∧ HarvestPlan.simulated_cash_delta plan' = HarvestPlan.simulated_cash_delta plan.
Proof.
  eexists.
  edestruct (recent_buys_as_a_set demo_navigator demo_lots demo_market demo_buys
               (reverse demo_buys ++ demo_buys))
    as (plan' & Hplan' & _ & Htotal & Hcash & _).
  - intros rb. rewrite elem_of_app, elem_of_reverse. tauto.
  - vm_compute. reflexivity.
  - exists plan'. split; [reflexivity|]. split; [exact Hplan'|]. split; assumption.
Defined.

(** ** The policy read from the database *)

Section Grouping.
Context {K V : Type} `{EqDecision K}.
Implicit Types (d : list (K * list V)) (rows : list (K * V)) (k : K) (v : V).

Lemma assoc_get_setdefault_append d k v k' :
  assoc_get (Main.setdefault_append d k v) k'
  = if decide (k' = k) then Some (default [] (assoc_get d k) ++ [v])
    else assoc_get d k'.
Proof.
  induction d as [|[k0 vs] d IH]; simpl.
  - repeat case_decide; by simplify_eq.
  - destruct (decide (k0 = k)) as [->|Hk0]; simpl.
    + repeat case_decide; by simplify_eq.
    + rewrite IH. repeat case_decide; by simplify_eq.
Qed.

Lemma setdefault_append_keys d k v :
  (Main.setdefault_append d k v).*1
  = if decide (k ∈ d.*1) then d.*1 else d.*1 ++ [k].
Proof.
  induction d as [|[k0 vs] d IH]; cbn [Main.setdefault_append].
  - case_decide as Hin; [by apply elem_of_nil in Hin|done].
  - rewrite fmap_cons. cbn [fst].
    destruct (decide (k0 = k)) as [->|Hk0]; rewrite fmap_cons; cbn [fst].
    + rewrite decide_True; [done|]. apply elem_of_cons. by left.
    + rewrite IH. destruct (decide (k ∈ d.*1)) as [Hin|Hin].
      * rewrite decide_True; [done|]. apply elem_of_cons. by right.
      * rewrite decide_False; [done|]. rewrite elem_of_cons. by intros [->|?].
Qed.

Lemma group_rows_snoc rows k v :
  Main.group_rows (rows ++ [(k, v)]) = Main.setdefault_append (Main.group_rows rows) k v.
Proof. unfold Main.group_rows. by rewrite foldl_app. Qed.

Lemma rows_of_snoc k' rows k v :
  rows_of k' (rows ++ [(k, v)])
  = rows_of k' rows ++ (if decide (k' = k) then [v] else []).
Proof.
  unfold rows_of. rewrite filter_app, fmap_app. f_equal.
  rewrite filter_cons, filter_nil. simpl.
  destruct (decide (k = k')), (decide (k' = k)); by simplify_eq.
Qed.

Lemma rows_of_elem k v rows : v ∈ rows_of k rows ↔ (k, v) ∈ rows.
Proof.
  unfold rows_of. rewrite list_elem_of_fmap. split.
  - intros ([k0 v0] & -> & [Hk Hin]%list_elem_of_filter). simpl in Hk. by subst k0.
  - intros Hin. exists (k, v). split; [done|]. by apply list_elem_of_filter.
Qed.

(** What the grouping loop leaves under a key: the rows of the key, in
    row order, and nothing for a key without rows. *)
Lemma group_rows_get rows k :
  assoc_get (Main.group_rows rows) k
  = match rows_of k rows with [] => None | vs => Some vs end.
Proof.
  induction rows as [|[k0 v0] rows IH] using rev_ind; [done|].
  rewrite group_rows_snoc, assoc_get_setdefault_append, rows_of_snoc.
  destruct (decide (k = k0)) as [->|Hk].
  - rewrite IH. by destruct (rows_of k0 rows).
  - rewrite IH, app_nil_r. done.
Qed.

Lemma group_rows_keys rows :
  NoDup (Main.group_rows rows).*1
  ∧ ∀ k, k ∈ (Main.group_rows rows).*1 ↔ k ∈ rows.*1.
Proof.
  induction rows as [|[k0 v0] rows [IHn IHk]] using rev_ind.
  - split; [constructor|done].
  - rewrite group_rows_snoc, setdefault_append_keys, fmap_app. simpl.
    destruct (decide (k0 ∈ (Main.group_rows rows).*1)) as [Hin|Hin].
    + split; [done|]. intros k. rewrite elem_of_app, list_elem_of_singleton, IHk.
      split; [by left|]. intros [? | ->]; [done|]. by apply IHk.
    + split.
      * apply NoDup_app. split_and!; [done| |apply NoDup_singleton].
        intros k Hk ->%list_elem_of_singleton. done.
      * intros k. by rewrite !elem_of_app, IHk.
Qed.

Lemma assoc_get_elem {W : Type} (d : list (K * W)) k (w : W) :
  NoDup d.*1 → (k, w) ∈ d ↔ assoc_get d k = Some w.
Proof.
  induction d as [|[k0 w0] d IH]; simpl.
  - intros _. split; [by intros ?%elem_of_nil|done].
  - intros [Hk0 Hnd]%NoDup_cons. rewrite elem_of_cons, (IH Hnd).
    destruct (decide (k0 = k)) as [->|Hne].
    + split.
      * intros [Heq|Hget]; [by simplify_eq|]. apply IH in Hget; [|done].
        destruct Hk0. apply list_elem_of_fmap. by exists (k, w).
      * intros [= ->]. by left.
    + split; [|by right]. intros [Heq|?]; [by simplify_eq|done].
Qed.

Lemma group_rows_elem rows k (vs : list V) :
  (k, vs) ∈ Main.group_rows rows ↔ vs ≠ [] ∧ vs = rows_of k rows.
Proof.
  rewrite (assoc_get_elem _ _ _ (proj1 (group_rows_keys rows))), group_rows_get.
  destruct (rows_of k rows) as [|v l]; split; try done.
  - by intros [? ->].
  - by intros [= <-].
  - by intros [_ ->].
Qed.

End Grouping.

Lemma dict_get_assoc_get {V : Type} (d : list (string * V)) (k : string) :
  ReplacementPolicy.dict_get d k = assoc_get d k.
Proof.
  induction d as [|[k0 v0] d IH]; [done|]. simpl. rewrite IH.
  by destruct (decide (k0 = k)); [rewrite bool_decide_eq_true_2|rewrite bool_decide_eq_false_2].
Qed.

Lemma group_rows_empty {K V : Type} `{EqDecision K} (rows : list (K * V)) :
  Main.group_rows rows = [] ↔ rows = [].
Proof.
  split; [|by intros ->]. destruct rows as [|[k v] rows] using rev_ind; [done|].
  rewrite group_rows_snoc. by destruct (Main.group_rows rows) as [|[k0 vs] d]; simpl;
    [|destruct (decide (k0 = k))].
Qed.

Lemma group_rows_keys_sorted {V : Type} (rows : list (Z * V)) :
  StronglySorted Z.le rows.*1 → StronglySorted Z.lt (Main.group_rows rows).*1.
Proof.
  induction rows as [|[k v] rows IH] using rev_ind; [constructor|].
  rewrite fmap_app, StronglySorted_app. intros (Hle & Hrows & _).
  rewrite group_rows_snoc, setdefault_append_keys.
  destruct (decide (k ∈ (Main.group_rows rows).*1)) as [Hin|Hin]; [by apply IH|].
  apply StronglySorted_app_2; [|by apply IH|repeat constructor].
  intros x1 x2 Hx1 ->%list_elem_of_singleton.
  assert (x1 ≠ k) by (by intros ->).
  apply (proj2 (group_rows_keys rows)) in Hx1.
  specialize (Hle x1 k Hx1). simpl in Hle.
  rewrite list_elem_of_singleton in Hle. specialize (Hle eq_refl). lia.
Qed.

Lemma policy_from_db_read (crows : list (Z * string)) (arows : list (string * string)) :
  crows ≠ [] ∨ arows ≠ [] →
  Main._policy_from_db crows arows
  = ReplacementPolicy.mk (Main.group_rows crows).*2 (Main.group_rows arows).
Proof.
  intros Hne. unfold Main._policy_from_db.
  destruct (bool_decide _ && bool_decide _) eqn:Hboth; [|done].
  apply andb_prop in Hboth as [Hc%bool_decide_eq_true Ha%bool_decide_eq_true].
  apply fmap_nil_inv in Hc.
  apply (proj1 (group_rows_empty _)) in Hc. apply (proj1 (group_rows_empty _)) in Ha.
  by destruct Hne.
Qed.

(** X14. [_policy_from_db] returns the demo policy when both queries fetch
    no row. Otherwise the clusters of the policy are the non-empty groups
    of symbols with one cluster id, and the alternatives of a symbol are
    the alt symbols of its rows, in row order (which the query makes
    alphabetical), with no entry for a symbol without rows; the demo
    policy then plays no part, so alternative rows alone give a policy
    without clusters. *)
Theorem policy_from_db_groups (crows : list (Z * string))
    (arows : list (string * string)) :
  let p := Main._policy_from_db crows arows in
  (crows = [] → arows = [] → p = demo_policy)
  ∧ (crows ≠ [] ∨ arows ≠ [] →
     (∀ c, c ∈ ReplacementPolicy.prohibited_equivalents p
           ↔ c ≠ [] ∧ ∃ id, c = rows_of id crows)
     ∧ (∀ s, ReplacementPolicy.dict_get (ReplacementPolicy.recommended_alternatives p) s
             = match rows_of s arows with [] => None | alts => Some alts end)
     ∧ NoDup (ReplacementPolicy.recommended_alternatives p).*1
     ∧ (crows = [] → ∀ s, ReplacementPolicy.cluster_for p s = {[ s ]})).
Proof.
  intros p. split; [by intros -> ->|].
  intros Hne. unfold p. rewrite (policy_from_db_read _ _ Hne). simpl. split_and!.
  - intros c. rewrite list_elem_of_fmap. split.
    + intros ([id c'] & -> & Hin). simpl.
      apply group_rows_elem in Hin as [? ->]. split; [done|by exists id].
    + intros (Hc & id & ->). exists (id, rows_of id crows). split; [done|].
      by apply group_rows_elem.
  - intros s. by rewrite dict_get_assoc_get, group_rows_get.
  - apply group_rows_keys.
  - by intros ->.
Qed.

(** X15. When no symbol is stored under two cluster ids, the clusters of
    the policy that [_policy_from_db] returns are pairwise disjoint. *)
Theorem policy_from_db_disjoint (crows : list (Z * string))
    (arows : list (string * string)) :
  (∀ id id' s, (id, s) ∈ crows → (id', s) ∈ crows → id = id') →
  disjoint_clusters (Main._policy_from_db crows arows).
Proof.
  intros Hone. unfold Main._policy_from_db.
  destruct (bool_decide _ && bool_decide _); [apply demo_policy_disjoint|].
  intros i j c1 c2 x Hi Hj H1 H2. simpl in Hi, Hj.
  apply list_lookup_fmap_Some in Hi as ([k1 c1'] & -> & Hi).
  apply list_lookup_fmap_Some in Hj as ([k2 c2'] & -> & Hj).
  simpl in H1, H2.
  pose proof (proj1 (group_rows_elem _ _ _) (list_elem_of_lookup_2 _ _ _ Hi)) as [_ ->].
  pose proof (proj1 (group_rows_elem _ _ _) (list_elem_of_lookup_2 _ _ _ Hj)) as [_ ->].
  apply rows_of_elem in H1, H2. pose proof (Hone _ _ _ H1 H2) as <-.
  apply (NoDup_lookup (Main.group_rows crows).*1 i j k1).
  - apply group_rows_keys.
  - by rewrite list_lookup_fmap, Hi.
  - by rewrite list_lookup_fmap, Hj.
Qed.

(** X15 on rows that cover two clusters. *)
Lemma policy_from_db_disjoint_example :
  disjoint_clusters
    (Main._policy_from_db [(1, "IVV"); (1, "SPY"); (2, "QQQ"); (2, "QQQM")]
       [("SPY", "VTI")]).
Proof.
  apply policy_from_db_disjoint.
  intros id id' s Hin Hin'.
  rewrite !elem_of_cons, elem_of_nil in Hin.
  rewrite !elem_of_cons, elem_of_nil in Hin'.
  destruct Hin as [?|[?|[?|[?|[]]]]], Hin' as [?|[?|[?|[?|[]]]]]; by simplify_eq.
Defined.

(** X16. The rows of [policy_clusters] arrive in the order of their
    cluster ids. A symbol that is stored under several ids then belongs,
    for [cluster_for], to the cluster of its lowest id. *)
Theorem policy_from_db_lowest_id (crows : list (Z * string))
    (arows : list (string * string)) (s : string) (id : Z) :
  StronglySorted Z.le crows.*1 →
  (id, s) ∈ crows →
  (∀ id', (id', s) ∈ crows → id ≤ id') →
  ReplacementPolicy.cluster_for (Main._policy_from_db crows arows) s
  = list_to_set (rows_of id crows).
Proof.
  intros Hsorted Hin Hleast.
  rewrite policy_from_db_read; [|left; by intros ->; apply elem_of_nil in Hin].
  apply group_rows_keys_sorted in Hsorted.
  assert ((id, rows_of id crows) ∈ Main.group_rows crows) as Hg.
  { apply group_rows_elem. split; [|done].
    apply rows_of_elem in Hin. by destruct (rows_of id crows); [apply elem_of_nil in Hin|]. }
  apply list_elem_of_split in Hg as (g1 & g2 & Hg).
  rewrite Hg, fmap_app, fmap_cons in Hsorted. simpl in Hsorted.
  unfold ReplacementPolicy.cluster_for. simpl.
  rewrite (cluster_scan_first _ s (g1.*2) (rows_of id crows) (g2.*2)); [done| | |].
  - by rewrite Hg, fmap_app, fmap_cons.
  - apply Forall_fmap, Forall_forall. intros [k c] Hk Hs. simpl in Hs.
    assert ((k, c) ∈ Main.group_rows crows) as [_ ->]%group_rows_elem.
    { rewrite Hg. apply elem_of_app. by left. }
    apply rows_of_elem, Hleast in Hs.
    assert (k < id); [|lia].
    apply (StronglySorted_app_1_elem_of _ _ _ _ _ Hsorted).
    + apply list_elem_of_fmap. by exists (k, rows_of k crows).
    + apply elem_of_cons. by left.
  - by apply rows_of_elem.
Qed.

(** X16 on rows that store SPY under the ids 1 and 2. *)
Lemma policy_from_db_lowest_id_example :
  ReplacementPolicy.cluster_for
    (Main._policy_from_db [(1, "SPY"); (1, "VOO"); (2, "QQQ"); (2, "SPY")] []) "SPY"
  = list_to_set (rows_of 1 [(1, "SPY"); (1, "VOO"); (2, "QQQ"); (2, "SPY")]).
Proof.
  apply policy_from_db_lowest_id.
  - repeat constructor; simpl; lia.
  - apply elem_of_cons. by left.
  - intros id' Hin. rewrite !elem_of_cons, elem_of_nil in Hin.
    destruct Hin as [?|[?|[?|[?|[]]]]]; simplify_eq; lia.
Defined.

(** ** The explanation of a plan *)

Section Explanation.
Import Explain.

Lemma item_line_cases it :
  (lacks_quantity it
   ∧ item_line it = TypeError "unsupported format string passed to NoneType.__format__")
  ∨ (¬ lacks_quantity it ∧ ∃ line, item_line it = Done line).
Proof.
  unfold lacks_quantity, item_line.
  destruct (HarvestItem.wash_sale_blocked it); [right; split; [by intros []|by eexists]|].
  destruct (HarvestItem.replacement_shares it); [right; split; [by intros []|by eexists]|].
  by left.
Qed.

Lemma item_lines_cases items : ∀ lines,
  (Exists lacks_quantity items
   ∧ item_lines items lines
     = TypeError "unsupported format string passed to NoneType.__format__")
  ∨ (Forall (λ it, ¬ lacks_quantity it) items
     ∧ ∃ more, length more = length items
               ∧ item_lines items lines = Done (lines ++ more)).
Proof.
  induction items as [|it items IH]; intros lines; cbn [item_lines].
  - right. split; [constructor|]. exists []. by rewrite app_nil_r.
  - destruct (item_line_cases it) as [[Hit ->]|[Hit [line ->]]].
    + left. split; [by apply Exists_cons_hd|done].
    + destruct (IH (lines ++ [line])) as [[Hex ->]|[Hall (more & Hlen & ->)]].
      * left. split; [by apply Exists_cons_tl|done].
      * right. split; [by constructor|]. exists (line :: more).
        split; [simpl; by rewrite Hlen|]. by rewrite <- app_assoc.
Qed.

Lemma join_head sep line lines :
  line ≠ "" → PyFormat.join sep (line :: lines) ≠ "".
Proof. destruct line; [done|]. intros _. by destruct lines. Qed.

Lemma fallback_cases plan :
  (Exists lacks_quantity (HarvestPlan.items plan)
   ∧ fallback plan = TypeError "unsupported format string passed to NoneType.__format__")
  ∨ (Forall (λ it, ¬ lacks_quantity it) (HarvestPlan.items plan)
     ∧ ∃ text, fallback plan = Done text ∧ text ≠ "").
Proof.
  unfold fallback.
  set (header := "As of " +:+ _).
  set (lines := if (0.01 <? abs _)%float then _ else _).
  destruct (item_lines_cases (HarvestPlan.items plan) lines)
    as [[Hex ->]|[Hall (more & _ & ->)]]; [by left|].
  right. split; [done|]. eexists. split; [done|].
  assert (∃ rest, lines = header :: rest) as [rest ->].
  { unfold lines. destruct (_ <? _)%float; by eexists. }
  rewrite <- !app_comm_cons. apply join_head. by unfold header.
Qed.

(** The loop of [build_plan] gives every item that is not blocked a
    replacement quantity. *)
Lemma item_of_quantity self market buys e :
  ¬ lacks_quantity (item_of self market buys e).
Proof.
  destruct e as [[i lot] px]. unfold lacks_quantity, item_of.
  destruct (verdict_correct self market buys lot px); simpl; by intros [].
Qed.

End Explanation.

(** X17. [explain_plan] raises in one case only: the language model is
    not reached (the fallback runs) and some item of the plan is not
    blocked yet has no replacement quantity; the [TypeError] of formatting
    [None] then escapes. In every other case it returns a text that is not
    empty. *)
Theorem explain_plan_outcome (reply : option string) (plan : HarvestPlan.t) :
  match Explain.explain_plan reply plan with
  | Explain.TypeError msg =>
      reply = None ∧ Exists lacks_quantity (HarvestPlan.items plan)
      ∧ msg = "unsupported format string passed to NoneType.__format__"
  | Explain.Done text =>
      text ≠ ""
      ∧ (reply = None → Forall (λ it, ¬ lacks_quantity it) (HarvestPlan.items plan))
  end.
Proof.
  destruct reply as [content|]; simpl.
  - split; [|done]. by case_bool_decide.
  - destruct (fallback_cases plan) as [[Hex ->]|[Hall (text & -> & Htext)]]; done.
Qed.

(** X18. For a plan that [build_plan] has returned, [explain_plan] returns
    a text that is not empty, whether the language model answers or the
    fallback runs. *)
Theorem explain_plan_of_built_plan (self : WashSaleNavigator.t) (lots : list TaxLot.t)
    (market : MarketData.t) (buys : list RecentBuy.t) (plan : HarvestPlan.t)
    (reply : option string) :
  WashSaleNavigator.build_plan self lots market buys = Ok plan →
  ∃ text, Explain.explain_plan reply plan = Explain.Done text ∧ text ≠ "".
Proof.
  intros [Hitems _]%plan_items. destruct reply as [content|]; simpl.
  - eexists. split; [done|]. by case_bool_decide.
  - destruct (fallback_cases plan) as [[Hex _]|[_ Htext]]; [|done].
    rewrite Hitems in Hex. apply Exists_exists in Hex as (it & Hin & Hit).
    apply list_elem_of_fmap in Hin as (e & -> & _).
    by destruct (item_of_quantity self market buys e).
Qed.

(** X18 on the demo data, with the fallback. *)
Lemma explain_plan_of_built_plan_demo :
  ∃ plan text,
    WashSaleNavigator.build_plan demo_navigator demo_lots demo_market demo_buys = Ok plan
    ∧ Explain.explain_plan None plan = Explain.Done text ∧ text ≠ "".
Proof.
  eexists.
  edestruct (explain_plan_of_built_plan demo_navigator demo_lots demo_market demo_buys)
    with (reply := @None string) as (text & Htext & Hne).
  - vm_compute. reflexivity.
  - exists text. split; [reflexivity|]. split; [exact Htext|exact Hne].
Defined.

(** ** Thresholds, recent buys and prices *)

Section Variations.
Import WashSaleNavigator.

Lemma SFltb_leb_trans (x a b : spec_float) :
  SFltb x a = true → SFleb a b = true → SFltb x b = true.
Proof.
  unfold SFltb, SFleb.
  destruct x as [sx|sx| |sx mx ex], a as [sa|sa| |sa ma ea], b as [sb|sb| |sb mb eb];
    simpl; try done;
    try (by destruct sx); try (by destruct sa); try (by destruct sb);
    try (by destruct sx, sa); try (by destruct sa, sb); try (by destruct sx, sb);
    try (by destruct sx, sa, sb).
  fold (Pos.compare mx ma). fold (Pos.compare ma mb). fold (Pos.compare mx mb).
  destruct sx, sa, sb; simpl; try done;
    destruct (Z.compare_spec ex ea), (Z.compare_spec ea eb), (Z.compare_spec ex eb);
    try done; try lia; subst;
    destruct (Pos.compare_spec mx ma), (Pos.compare_spec ma mb), (Pos.compare_spec mx mb);
    simpl; try done; try lia.
Qed.

Lemma ltb_leb_trans (x a b : float) :
  (x <? a)%float = true → (a <=? b)%float = true → (x <? b)%float = true.
Proof. rewrite !FloatAxioms.ltb_spec, FloatAxioms.leb_spec. apply SFltb_leb_trans. Qed.

Lemma passes_looser self1 self2 lot px :
  (min_loss_dollars self1 <=? min_loss_dollars self2)%float = true →
  (min_loss_pct self1 <=? min_loss_pct self2)%float = true →
  passes self2 lot px = true → passes self1 lot px = true.
Proof.
  unfold passes. rewrite !negb_true_iff, !orb_false_iff. intros Hd Hp [H2d H2p]. split.
  - destruct (loss_total lot px <? min_loss_dollars self1)%float eqn:E; [|done].
    by rewrite (ltb_leb_trans _ _ _ E Hd) in H2d.
  - destruct (loss_pct lot px <? min_loss_pct self1)%float eqn:E; [|done].
    by rewrite (ltb_leb_trans _ _ _ E Hp) in H2p.
Qed.

Lemma entries_looser self1 self2 market lots :
  (min_loss_dollars self1 <=? min_loss_dollars self2)%float = true →
  (min_loss_pct self1 <=? min_loss_pct self2)%float = true →
  ∀ idx, entries self2 market idx lots `sublist_of` entries self1 market idx lots.
Proof.
  intros Hd Hp. induction lots as [|lot lots IH]; intros idx; cbn [entries]; [done|].
  unfold evaluable. destruct (MarketData.price market (TaxLot.symbol lot)) as [px|]; [|apply IH].
  destruct (passes self2 lot px) eqn:E2.
  - rewrite (passes_looser self1 self2 lot px Hd Hp E2). apply sublist_skip, IH.
  - destruct (passes self1 lot px); [apply sublist_cons|]; apply IH.
Qed.

Lemma item_of_policy self1 self2 market buys e :
  policy self1 = policy self2 →
  item_of self1 market buys e = item_of self2 market buys e.
Proof. destruct self1, self2. simpl. by intros ->. Qed.

(** A longer list of recent buys leaves an item as it is unless it blocks it. *)
Lemma item_of_more_buys self market buys buys' e :
  (∀ rb, rb ∈ buys → rb ∈ buys') →
  HarvestItem.wash_sale_blocked (item_of self market buys' e) = false →
  item_of self market buys' e = item_of self market buys e.
Proof.
  intros Hsub. destruct e as [[i lot] px].
  pose proof (window_scan_flag (policy self) (TaxLot.symbol lot)
                (MarketData.asof market) buys) as Hf.
  pose proof (window_scan_flag (policy self) (TaxLot.symbol lot)
                (MarketData.asof market) buys') as Hf'.
  pose proof (window_scan_clear
                (ReplacementPolicy.cluster_for (policy self) (TaxLot.symbol lot))
                (MarketData.asof market) buys) as Hc.
  pose proof (window_scan_clear
                (ReplacementPolicy.cluster_for (policy self) (TaxLot.symbol lot))
                (MarketData.asof market) buys') as Hc'.
  unfold item_of, verdict, _is_blocked.
  destruct (window_scan _ _ buys) as [b r], (window_scan _ _ buys') as [b' r'].
  simpl in Hf, Hf', Hc, Hc'. destruct b'; simpl; [done|].
  destruct b.
  - assert (false = true); [|done]. apply Hf'.
    pose proof (proj1 Hf eq_refl) as Hex.
    apply Exists_exists in Hex as (rb & Hin & Hrb).
    apply Exists_exists. exists rb. split; [by apply Hsub|done].
  - specialize (Hc eq_refl). specialize (Hc' eq_refl).
    injection Hc as ->. by injection Hc' as ->.
Qed.

Lemma pick_scan_agree alts proceeds market market' :
  Forall (λ a, MarketData.price market a = MarketData.price market' a) alts →
  pick_scan alts proceeds market = pick_scan alts proceeds market'.
Proof. induction 1 as [|a alts Ha _ IH]; [done|]. simpl. by rewrite Ha, IH. Qed.

Lemma lot_step_prices self market market' buys today idx lot st :
  MarketData.price market (TaxLot.symbol lot)
  = MarketData.price market' (TaxLot.symbol lot) →
  Forall (λ a, MarketData.price market a = MarketData.price market' a)
    (ReplacementPolicy.safe_alternatives (policy self) (TaxLot.symbol lot)) →
  lot_step self market buys today idx lot st
  = lot_step self market' buys today idx lot st.
Proof.
  intros Hpx Halts. unfold lot_step, _pick_replacement. cbv zeta. rewrite Hpx.
  destruct st as [[items total] cash].
  destruct (MarketData.price market' (TaxLot.symbol lot)) as [px|]; [|done].
  by rewrite (pick_scan_agree _ (TaxLot.shares lot * px)%float market market' Halts).
Qed.

Lemma plan_loop_prices self market market' buys today lots :
  Forall (λ lot,
      MarketData.price market (TaxLot.symbol lot)
      = MarketData.price market' (TaxLot.symbol lot)
      ∧ Forall (λ a, MarketData.price market a = MarketData.price market' a)
          (ReplacementPolicy.safe_alternatives (policy self) (TaxLot.symbol lot)))
    lots →
  ∀ idx st,
    plan_loop self market buys today idx lots st
    = plan_loop self market' buys today idx lots st.
Proof.
  induction 1 as [|lot lots [Hpx Halts] _ IH]; intros idx st; [done|].
  cbn [plan_loop]. rewrite (lot_step_prices _ _ _ _ _ _ _ _ Hpx Halts).
  destruct (lot_step _ _ _ _ _ _ _); simpl; [apply IH|done].
Qed.

End Variations.

(** X19. Raising the thresholds only drops items. With the same policy
    and thresholds that are at least as high, [build_plan] returns a plan
    whenever it did with the lower thresholds, and the items of the new
    plan are items of the old one, unchanged and in the same order. *)
Theorem higher_thresholds_drop_items (self1 self2 : WashSaleNavigator.t)
    (lots : list TaxLot.t) (market : MarketData.t) (buys : list RecentBuy.t)
    (plan1 : HarvestPlan.t) :
  WashSaleNavigator.policy self1 = WashSaleNavigator.policy self2 →
  (WashSaleNavigator.min_loss_dollars self1
   <=? WashSaleNavigator.min_loss_dollars self2)%float = true →
  (WashSaleNavigator.min_loss_pct self1
   <=? WashSaleNavigator.min_loss_pct self2)%float = true →
  WashSaleNavigator.build_plan self1 lots market buys = Ok plan1 →
  ∃ plan2,
    WashSaleNavigator.build_plan self2 lots market buys = Ok plan2
    ∧ HarvestPlan.items plan2 `sublist_of` HarvestPlan.items plan1.
Proof.
  intros Hpol Hd Hp. rewrite !build_plan_spec.
  pose proof (entries_looser self1 self2 market lots Hd Hp 0%nat) as Hsub.
  destruct (forallb _ (entries self1 market 0 lots)) eqn:Hall; [|done].
  intros [= <-].
  replace (forallb _ (entries self2 market 0 lots)) with true.
  - eexists. split; [done|]. simpl.
    rewrite (list_fmap_ext (item_of self2 market buys) (item_of self1 market buys)
               (entries self2 market 0 lots)).
    + by apply fmap_sublist.
    + intros ? e _. symmetry. by apply item_of_policy.
  - symmetry. apply forallb_forall. intros e He%list_elem_of_In.
    rewrite forallb_forall in Hall. apply Hall, list_elem_of_In.
    eapply elem_of_submseteq; [exact He|]. by apply sublist_submseteq.
Qed.

(** X19 on the demo data, with the dollar threshold raised to 600. *)
Lemma higher_thresholds_drop_items_demo :
  ∃ plan1 plan2,
    WashSaleNavigator.build_plan demo_navigator demo_lots demo_market demo_buys = Ok plan1
    ∧ WashSaleNavigator.build_plan (WashSaleNavigator.mk demo_policy 600 0.05)
        demo_lots demo_market demo_buys = Ok plan2
    ∧ HarvestPlan.items plan2 `sublist_of` HarvestPlan.items plan1.
Proof.
  eexists.
  edestruct (higher_thresholds_drop_items demo_navigator
               (WashSaleNavigator.mk demo_policy 600 0.05)
               demo_lots demo_market demo_buys) as (plan2 & Hplan2 & Hsub).
  - reflexivity.
  - vm_compute. reflexivity.
  - vm_compute. reflexivity.
  - vm_compute. reflexivity.
  - exists plan2. split; [reflexivity|]. split; [exact Hplan2|exact Hsub].
Defined.

(** X20. More recent buys only block more. When every recent buy of one
    list is in a second list, [build_plan] returns a plan for the second
    list whenever it did for the first, with an item for the same lots;
    an item that is not blocked in the second plan is the item of the
    first plan, unchanged, so no item becomes unblocked. *)
Theorem more_buys_only_block (self : WashSaleNavigator.t) (lots : list TaxLot.t)
    (market : MarketData.t) (buys buys' : list RecentBuy.t) (plan : HarvestPlan.t) :
  (∀ rb, rb ∈ buys → rb ∈ buys') →
  WashSaleNavigator.build_plan self lots market buys = Ok plan →
  ∃ plan',
    WashSaleNavigator.build_plan self lots market buys' = Ok plan'
    ∧ Forall2 (λ it it',
          HarvestItem.lot_index it' = HarvestItem.lot_index it
          ∧ HarvestItem.symbol it' = HarvestItem.symbol it
          ∧ HarvestItem.loss_dollars it' = HarvestItem.loss_dollars it
          ∧ (HarvestItem.wash_sale_blocked it' = false → it' = it)
          ∧ (HarvestItem.wash_sale_blocked it = true
             → HarvestItem.wash_sale_blocked it' = true))
        (HarvestPlan.items plan) (HarvestPlan.items plan').
Proof.
  intros Hsub. rewrite !build_plan_spec.
  destruct (forallb _ _); [|done]. intros [= <-]. eexists. split; [done|]. simpl.
  apply Forall2_fmap, Forall_Forall2_diag, Forall_forall. intros [[i lot] px] _.
  pose proof (item_of_more_buys self market buys buys' (i, lot, px) Hsub) as Hkeep.
  destruct (item_of_fixed self market buys i lot px) as (Hs & Hi & _ & _ & Hl & _).
  destruct (item_of_fixed self market buys' i lot px) as (Hs' & Hi' & _ & _ & Hl' & _).
  cbv zeta in Hs, Hi, Hl, Hs', Hi', Hl'.
  rewrite Hs, Hi, Hl, Hs', Hi', Hl'. split_and!; try done.
  intros Hb. destruct (HarvestItem.wash_sale_blocked (item_of self market buys' _)) eqn:Hb';
    [done|].
  rewrite (Hkeep eq_refl) in Hb'. by rewrite Hb in Hb'.
Qed.

(** X20 on the demo data, with a purchase of QQQM added one day before
    the sale. *)
Lemma more_buys_only_block_demo :
  ∃ plan plan',
    WashSaleNavigator.build_plan demo_navigator demo_lots demo_market demo_buys = Ok plan
    ∧ WashSaleNavigator.build_plan demo_navigator demo_lots demo_market
        (RecentBuy.mk (demo_today - 1) "QQQM" 1 :: demo_buys) = Ok plan'
    ∧ Forall2 (λ it it',
          HarvestItem.wash_sale_blocked it' = false → it' = it)
        (HarvestPlan.items plan) (HarvestPlan.items plan').
Proof.
  eexists.
  edestruct (more_buys_only_block demo_navigator demo_lots demo_market demo_buys
               (RecentBuy.mk (demo_today - 1) "QQQM" 1 :: demo_buys))
    as (plan' & Hplan' & Hitems).
  - intros rb Hin. apply elem_of_cons. by right.
  - vm_compute. reflexivity.
  - exists plan'. split; [reflexivity|]. split; [exact Hplan'|].
    eapply Forall2_impl; [exact Hitems|]. intros it it' (_ & _ & _ & H & _). exact H.
Defined.

(** X21. [build_plan] reads the prices of the symbols of the lots and of
    their safe alternatives, and no other: two markets with the same as-of
    date that agree on these prices give the same result. *)
Theorem build_plan_reads_relevant_prices (self : WashSaleNavigator.t)
    (lots : list TaxLot.t) (market market' : MarketData.t) (buys : list RecentBuy.t) :
  MarketData.asof market = MarketData.asof market' →
  Forall (λ lot,
      MarketData.price market (TaxLot.symbol lot)
      = MarketData.price market' (TaxLot.symbol lot)
      ∧ Forall (λ a, MarketData.price market a = MarketData.price market' a)
          (ReplacementPolicy.safe_alternatives (WashSaleNavigator.policy self)
             (TaxLot.symbol lot)))
    lots →
  WashSaleNavigator.build_plan self lots market buys
  = WashSaleNavigator.build_plan self lots market' buys.
Proof.
  intros Hasof Hagree. unfold WashSaleNavigator.build_plan. cbv zeta.
  by rewrite Hasof, (plan_loop_prices self market market' buys _ lots Hagree).
Qed.

(** X21 on the demo data, with the prices of two symbols that the demo
    lots and their alternatives do not name changed or added. *)
Lemma build_plan_reads_relevant_prices_demo :
  WashSaleNavigator.build_plan demo_navigator demo_lots demo_market demo_buys
  = WashSaleNavigator.build_plan demo_navigator demo_lots
      (MarketData.mk demo_today
         (<["QQQM" := 1%float]> (<["GLD" := 7%float]> (MarketData.prices demo_market))))
      demo_buys.
Proof.
  apply build_plan_reads_relevant_prices.
  - reflexivity.
  - vm_compute. repeat constructor.
Defined.

(** ** One lot at a time *)

Section Independence.
Import WashSaleNavigator.
Context (self : WashSaleNavigator.t) (market : MarketData.t).

Lemma entries_shift lots : ∀ n idx,
  entries self market (n + idx) lots
  = (λ e, ((n + e.1.1)%nat, e.1.2, e.2)) <$> entries self market idx lots.
Proof.
  induction lots as [|lot lots IH]; intros n idx; cbn [entries]; [done|].
  rewrite <- Nat.add_succ_r, IH. by destruct (evaluable self market lot).
Qed.

Lemma entries_app lots1 lots2 : ∀ idx,
  entries self market idx (lots1 ++ lots2)
  = entries self market idx lots1
    ++ entries self market (length lots1 + idx) lots2.
Proof.
  induction lots1 as [|lot lots1 IH]; intros idx; [done|].
  rewrite <- app_comm_cons. cbn [entries length Nat.add].
  rewrite IH, <- Nat.add_succ_r.
  by destruct (evaluable self market lot).
Qed.

Lemma item_of_renumbered buys n e :
  item_of self market buys ((n + e.1.1)%nat, e.1.2, e.2)
  = renumbered n (item_of self market buys e).
Proof.
  destruct e as [[i lot] px]. unfold item_of, renumbered. simpl.
  by destruct (verdict self market buys lot px) as [[[[? ?] ?] ?] ?].
Qed.

Lemma constructible_shift n (es : list (nat * TaxLot.t * float)) :
  forallb (constructible market) ((λ e, ((n + e.1.1)%nat, e.1.2, e.2)) <$> es)
  = forallb (constructible market) es.
Proof.
  induction es as [|e es IH]; [done|].
  rewrite fmap_cons. cbn [forallb]. by rewrite IH.
Qed.

End Independence.

(** X22. The lots are decided one at a time: the plan for a list of lots
    in two parts has the items of the plan for the first part, followed by
    those of the plan for the second part with their lot numbers moved up.
    No lot changes the item of another, so a replacement bought for one
    lot is not checked against the sales of the others. *)
Theorem lots_decided_one_at_a_time (self : WashSaleNavigator.t)
    (lots1 lots2 : list TaxLot.t) (market : MarketData.t) (buys : list RecentBuy.t)
    (plan : HarvestPlan.t) :
  WashSaleNavigator.build_plan self (lots1 ++ lots2) market buys = Ok plan →
  ∃ plan1 plan2,
    WashSaleNavigator.build_plan self lots1 market buys = Ok plan1
    ∧ WashSaleNavigator.build_plan self lots2 market buys = Ok plan2
    ∧ HarvestPlan.items plan
      = HarvestPlan.items plan1
        ++ (renumbered (length lots1) <$> HarvestPlan.items plan2).
Proof.
  rewrite !build_plan_spec, entries_app, entries_shift, forallb_app, constructible_shift.
  destruct (forallb _ (entries self market 0 lots1)); [|done].
  destruct (forallb _ (entries self market 0 lots2)); [|done].
  intros [= <-]. do 2 eexists. split_and!; [done..|]. simpl.
  rewrite fmap_app, <- !list_fmap_compose. f_equal.
  apply list_fmap_ext. intros ? e _. apply item_of_renumbered.
Qed.

(** X22 on the demo data, split after the second lot. *)
Lemma lots_decided_one_at_a_time_demo :
  ∃ plan plan1 plan2,
    WashSaleNavigator.build_plan demo_navigator (take 2 demo_lots ++ drop 2 demo_lots)
      demo_market demo_buys = Ok plan
    ∧ WashSaleNavigator.build_plan demo_navigator (take 2 demo_lots)
        demo_market demo_buys = Ok plan1
    ∧ WashSaleNavigator.build_plan demo_navigator (drop 2 demo_lots)
        demo_market demo_buys = Ok plan2
    ∧ HarvestPlan.items plan
      = HarvestPlan.items plan1
        ++ (renumbered (length (take 2 demo_lots)) <$> HarvestPlan.items plan2).
Proof.
  eexists.
  edestruct (lots_decided_one_at_a_time demo_navigator (take 2 demo_lots)
               (drop 2 demo_lots) demo_market demo_buys)
    as (plan1 & plan2 & H1 & H2 & Hitems).
  - vm_compute. reflexivity.
  - exists plan1, plan2. split; [reflexivity|]. split; [exact H1|].
    split; [exact H2|exact Hitems].
Defined.
